(** * Health_Records: the canister of src/src/index.ts

    A shallow embedding of the stable memory, of the five stable-map handles
    opened on it and of the update and query methods, followed by the
    properties of the natural-language specification that can be settled on
    the code.

    Conventions of the embedding.
    - The five [StableBTreeMap] handles are all constructed with memory id 0,
      so they are five views of one store: what is inserted or removed
      through one handle is read through every other.  The state is that one
      finite map; its capacity bounds (key and value sizes) are not modelled,
      so no store operation throws and the [catch] arm of every method is
      unreachable.
    - The store holds JavaScript objects as the methods build them.  A
      handle's value type does not filter what is read: [getPatient] returns
      whatever object sits under the id.  An object is embedded as a record
      of [id], [createdAt] and the eighteen other fields the five record
      types declare, each optional (absent when the object has no such
      property).
    - [uuidv4()] and [ic.time()] are called at most once per method; their
      results are the arguments [uuid] and [time] of the embedded method.
    - [Opt<T>] is the variant object [{Some: v}] / [{None: null}] that the
      source dispatches on with [match] and reads with [.Some]; it is
      embedded as [option].  Both forms are JavaScript objects.
    - A [number] is embedded as an integer [Z] (fractions, NaN and the
      infinities are left out); a [nat64] as [N]; a [string] as [string],
      its [length] being the number of characters of the embedding. *)

From stdpp Require Import base strings gmap.

Local Open Scope string_scope.

(** ** JavaScript truthiness, at the types the source applies it to *)

Module JS.

(** [!!s] for a string: only the empty string is falsy. *)
Definition truthy_string (s : string) : bool := negb (String.eqb s "").

(** [!!n] for a number: zero is falsy (NaN is outside the embedding). *)
Definition truthy_number (n : Z) : bool := negb (Z.eqb n 0).

(** [!!o] for an [Opt<T>]: [{Some: v}] and [{None: null}] are both
    objects, and every object is truthy. *)
Definition truthy_Opt {A : Type} (o : option A) : bool :=
  match o with
  | Some _ => true
  | None => true
  end.

(** [!!a] for an array: an object, hence truthy, also when empty. *)
Definition truthy_Vec {A : Type} (a : list A) : bool :=
  match a with
  | [] => true
  | _ :: _ => true
  end.

(** [a !== b] on strings. *)
Definition strict_ne (a b : string) : bool := negb (String.eqb a b).

End JS.

(** ** Records *)

Module Patient.
Record t : Type := mk {
  id : string;
  name : string;
  age : Z;
  gender : string;
  bloodType : string;
  medicalHistory : string;
  createdAt : N;
  updatedAt : option N
}.
End Patient.

Module HealthRecord.
Record t : Type := mk {
  id : string;
  patientID : string;
  uniqueNumber : string;
  officerID : string;
  diagnosisNotes : string;
  labTestIDs : option (list string);
  prescriptionIDs : list string;
  createdAt : N
}.
End HealthRecord.

Module Doctor.
Record t : Type := mk {
  id : string;
  name : string;
  specialization : string;
  createdAt : N
}.
End Doctor.

Module Prescription.
Record t : Type := mk {
  id : string;
  doctorID : string;
  patientID : string;
  medication : string;
  dosage : string;
  createdAt : N
}.
End Prescription.

Module LabTest.
Record t : Type := mk {
  id : string;
  patientID : string;
  doctorID : string;
  testType : string;
  results : string;
  createdAt : N
}.
End LabTest.

(** ** Stored objects *)

(** A value of the store: a JavaScript object.  Every object the methods
    build has an [id] and a [createdAt]; each other field is a property the
    object may or may not have.  A field name has one type in all the record
    types that declare it. *)
Module Obj.
Record t : Type := mk {
  id : string;
  createdAt : N;
  name : option string;
  age : option Z;
  gender : option string;
  bloodType : option string;
  medicalHistory : option string;
  updatedAt : option (option N);
  patientID : option string;
  uniqueNumber : option string;
  officerID : option string;
  diagnosisNotes : option string;
  labTestIDs : option (option (list string));
  prescriptionIDs : option (list string);
  specialization : option string;
  doctorID : option string;
  medication : option string;
  dosage : option string;
  testType : option string;
  results : option string
}.

(** One property of [{...a, ...b}]: the later object's, if it has it. *)
Definition later {A : Type} (a b : option A) : option A :=
  match b with
  | Some v => Some v
  | None => a
  end.

(** [{...a, ...b}] *)
Definition spread (a b : t) : t :=
  {| id := id b;
     createdAt := createdAt b;
     name := later (name a) (name b);
     age := later (age a) (age b);
     gender := later (gender a) (gender b);
     bloodType := later (bloodType a) (bloodType b);
     medicalHistory := later (medicalHistory a) (medicalHistory b);
     updatedAt := later (updatedAt a) (updatedAt b);
     patientID := later (patientID a) (patientID b);
     uniqueNumber := later (uniqueNumber a) (uniqueNumber b);
     officerID := later (officerID a) (officerID b);
     diagnosisNotes := later (diagnosisNotes a) (diagnosisNotes b);
     labTestIDs := later (labTestIDs a) (labTestIDs b);
     prescriptionIDs := later (prescriptionIDs a) (prescriptionIDs b);
     specialization := later (specialization a) (specialization b);
     doctorID := later (doctorID a) (doctorID b);
     medication := later (medication a) (medication b);
     dosage := later (dosage a) (dosage b);
     testType := later (testType a) (testType b);
     results := later (results a) (results b) |}.

(** [{...o, updatedAt: v}] *)
Definition with_updatedAt (v : option N) (o : t) : t :=
  {| id := id o;
     createdAt := createdAt o;
     name := name o;
     age := age o;
     gender := gender o;
     bloodType := bloodType o;
     medicalHistory := medicalHistory o;
     updatedAt := Some v;
     patientID := patientID o;
     uniqueNumber := uniqueNumber o;
     officerID := officerID o;
     diagnosisNotes := diagnosisNotes o;
     labTestIDs := labTestIDs o;
     prescriptionIDs := prescriptionIDs o;
     specialization := specialization o;
     doctorID := doctorID o;
     medication := medication o;
     dosage := dosage o;
     testType := testType o;
     results := results o |}.

(** [{...o, labTestIDs: v}] *)
Definition with_labTestIDs (v : option (list string)) (o : t) : t :=
  {| id := id o;
     createdAt := createdAt o;
     name := name o;
     age := age o;
     gender := gender o;
     bloodType := bloodType o;
     medicalHistory := medicalHistory o;
     updatedAt := updatedAt o;
     patientID := patientID o;
     uniqueNumber := uniqueNumber o;
     officerID := officerID o;
     diagnosisNotes := diagnosisNotes o;
     labTestIDs := Some v;
     prescriptionIDs := prescriptionIDs o;
     specialization := specialization o;
     doctorID := doctorID o;
     medication := medication o;
     dosage := dosage o;
     testType := testType o;
     results := results o |}.

(** The objects of the five record types. *)
Definition of_Patient (p : Patient.t) : t :=
  {| id := Patient.id p;
     createdAt := Patient.createdAt p;
     name := Some (Patient.name p);
     age := Some (Patient.age p);
     gender := Some (Patient.gender p);
     bloodType := Some (Patient.bloodType p);
     medicalHistory := Some (Patient.medicalHistory p);
     updatedAt := Some (Patient.updatedAt p);
     patientID := None;
     uniqueNumber := None;
     officerID := None;
     diagnosisNotes := None;
     labTestIDs := None;
     prescriptionIDs := None;
     specialization := None;
     doctorID := None;
     medication := None;
     dosage := None;
     testType := None;
     results := None |}.

Definition of_HealthRecord (r : HealthRecord.t) : t :=
  {| id := HealthRecord.id r;
     createdAt := HealthRecord.createdAt r;
     name := None;
     age := None;
     gender := None;
     bloodType := None;
     medicalHistory := None;
     updatedAt := None;
     patientID := Some (HealthRecord.patientID r);
     uniqueNumber := Some (HealthRecord.uniqueNumber r);
     officerID := Some (HealthRecord.officerID r);
     diagnosisNotes := Some (HealthRecord.diagnosisNotes r);
     labTestIDs := Some (HealthRecord.labTestIDs r);
     prescriptionIDs := Some (HealthRecord.prescriptionIDs r);
     specialization := None;
     doctorID := None;
     medication := None;
     dosage := None;
     testType := None;
     results := None |}.

Definition of_Doctor (d : Doctor.t) : t :=
  {| id := Doctor.id d;
     createdAt := Doctor.createdAt d;
     name := Some (Doctor.name d);
     age := None;
     gender := None;
     bloodType := None;
     medicalHistory := None;
     updatedAt := None;
     patientID := None;
     uniqueNumber := None;
     officerID := None;
     diagnosisNotes := None;
     labTestIDs := None;
     prescriptionIDs := None;
     specialization := Some (Doctor.specialization d);
     doctorID := None;
     medication := None;
     dosage := None;
     testType := None;
     results := None |}.

Definition of_Prescription (p : Prescription.t) : t :=
  {| id := Prescription.id p;
     createdAt := Prescription.createdAt p;
     name := None;
     age := None;
     gender := None;
     bloodType := None;
     medicalHistory := None;
     updatedAt := None;
     patientID := Some (Prescription.patientID p);
     uniqueNumber := None;
     officerID := None;
     diagnosisNotes := None;
     labTestIDs := None;
     prescriptionIDs := None;
     specialization := None;
     doctorID := Some (Prescription.doctorID p);
     medication := Some (Prescription.medication p);
     dosage := Some (Prescription.dosage p);
     testType := None;
     results := None |}.

Definition of_LabTest (l : LabTest.t) : t :=
  {| id := LabTest.id l;
     createdAt := LabTest.createdAt l;
     name := None;
     age := None;
     gender := None;
     bloodType := None;
     medicalHistory := None;
     updatedAt := None;
     patientID := Some (LabTest.patientID l);
     uniqueNumber := None;
     officerID := None;
     diagnosisNotes := None;
     labTestIDs := None;
     prescriptionIDs := None;
     specialization := None;
     doctorID := Some (LabTest.doctorID l);
     medication := None;
     dosage := None;
     testType := Some (LabTest.testType l);
     results := Some (LabTest.results l) |}.
End Obj.

(** ** Errors and results *)

Inductive Error : Type :=
| NotFound (msg : string)
| InvalidPayload (msg : string).

Inductive Result (A : Type) : Type :=
| Ok (a : A)
| Err (e : Error).

Arguments Ok {A} a.
Arguments Err {A} e.

Definition is_Err {A : Type} (r : Result A) : bool :=
  match r with
  | Ok _ => false
  | Err _ => true
  end.

Definition is_NotFound {A : Type} (r : Result A) : bool :=
  match r with
  | Err (NotFound _) => true
  | _ => false
  end.

Definition is_InvalidPayload {A : Type} (r : Result A) : bool :=
  match r with
  | Err (InvalidPayload _) => true
  | _ => false
  end.

(** ** The stable maps *)

(** [StableBTreeMap] is a class of the azle library, which the sources import
    and do not contain.  Its four methods used here follow the Entity Store
    contract of the specification: [insert] is an upsert that returns the
    previous value if any, [get] a point lookup, [remove] deletes and returns
    the removed value, [values] a full scan; each optional result is an
    [Opt].  The order of [values] plays no part in what follows. *)
Module StableBTreeMap.
Section Ops.
Context {V : Type}.

Definition get (key : string) (m : gmap string V) : option V := m !! key.

(** [insert] is an upsert and hands back the previous value. *)
Definition insert (key : string) (value : V) (m : gmap string V)
  : option V * gmap string V :=
  (m !! key, <[key := value]> m).

Definition remove (key : string) (m : gmap string V)
  : option V * gmap string V :=
  (m !! key, delete key m).

Definition values (m : gmap string V) : list V := (map_to_list m).*2.
End Ops.
End StableBTreeMap.

(** The stable memory with id 0, a map from keys to objects. *)
Record State : Type := mkState {
  stable_memory_0 : gmap string Obj.t
}.

(** The state of a freshly installed canister. *)
Definition init : State := mkState ∅.

(** The five handles.  The source constructs each of them as
    [new StableBTreeMap<string, _>(0, 44, 1024)]: memory id 0 every time, so
    reading through a handle reads the one memory and writing through it
    replaces the one memory's content. *)
Definition patientsStorage (st : State) : gmap string Obj.t :=
  stable_memory_0 st.

Definition healthRecordsStorage (st : State) : gmap string Obj.t :=
  stable_memory_0 st.

Definition doctorsStorage (st : State) : gmap string Obj.t :=
  stable_memory_0 st.

Definition prescriptionsStorage (st : State) : gmap string Obj.t :=
  stable_memory_0 st.

Definition labTestsStorage (st : State) : gmap string Obj.t :=
  stable_memory_0 st.

Definition with_patients (m : gmap string Obj.t) (st : State) : State :=
  mkState m.

Definition with_healthRecords (m : gmap string Obj.t) (st : State) : State :=
  mkState m.

Definition with_doctors (m : gmap string Obj.t) (st : State) : State :=
  mkState m.

Definition with_prescriptions (m : gmap string Obj.t) (st : State) : State :=
  mkState m.

Definition with_labTests (m : gmap string Obj.t) (st : State) : State :=
  mkState m.

(** ** Patient service *)

(** [addPatient(payload: Patient)].  The object literal spreads the payload
    and then sets [id], [createdAt] and [updatedAt], so these three fields of
    the payload are discarded. *)
Definition addPatient (uuid : string) (time : N) (payload : Patient.t)
    (st : State) : Result Patient.t * State :=
  if negb (JS.truthy_string (Patient.name payload))
     || negb (JS.truthy_number (Patient.age payload))
     || negb (JS.truthy_string (Patient.gender payload))
     || negb (JS.truthy_string (Patient.bloodType payload))
     || negb (JS.truthy_string (Patient.medicalHistory payload))
  then (Err (InvalidPayload "Invalid patient payload"), st)
  else if (Patient.age payload <=? 0)%Z
  then (Err (InvalidPayload "Invalid age"), st)
  else if JS.strict_ne (Patient.gender payload) "male"
          && JS.strict_ne (Patient.gender payload) "female"
  then (Err (InvalidPayload "Invalid gender"), st)
  else if JS.strict_ne (Patient.bloodType payload) "A"
          && JS.strict_ne (Patient.bloodType payload) "B"
          && JS.strict_ne (Patient.bloodType payload) "AB"
          && JS.strict_ne (Patient.bloodType payload) "O"
  then (Err (InvalidPayload "Invalid blood type"), st)
  else if (1000 <? Z.of_nat (String.length (Patient.medicalHistory payload)))%Z
  then (Err (InvalidPayload "Invalid medical history"), st)
  else
    let patient :=
      {| Patient.id := uuid;
         Patient.name := Patient.name payload;
         Patient.age := Patient.age payload;
         Patient.gender := Patient.gender payload;
         Patient.bloodType := Patient.bloodType payload;
         Patient.medicalHistory := Patient.medicalHistory payload;
         Patient.createdAt := time;
         Patient.updatedAt := None |} in
    let '(_, patients) :=
      StableBTreeMap.insert (Patient.id patient) (Obj.of_Patient patient)
                            (patientsStorage st) in
    (Ok patient, with_patients patients st).

(** [getPatients()]: every object of the memory. *)
Definition getPatients (st : State) : Result (list Obj.t) :=
  Ok (StableBTreeMap.values (patientsStorage st)).

(** [getPatient(id)], a query: it has no access to a successor state.
    [typeof id !== "string"] is false for every argument of type [text].
    The object found is returned as it is. *)
Definition getPatient (id : string) (st : State) : Result Obj.t :=
  if negb (JS.truthy_string id)
  then Err (NotFound "Invalid patient ID")
  else
    let existingPatientOpt := StableBTreeMap.get id (patientsStorage st) in
    match existingPatientOpt with
    | Some patient => Ok patient
    | None => Err (NotFound ("The patient with ID " +:+ id +:+ " not found"))
    end.

(** [updatePatient(id, payload: Patient)].  The payload has the full
    [Patient] type, so in [{...existingPatient, ...payload, updatedAt}] the
    eight [Patient] fields of the object found, [id] and [createdAt]
    included, are overwritten by the payload's before [updatedAt] is set;
    what else the object found holds is kept. *)
Definition updatePatient (time : N) (id : string) (payload : Patient.t)
    (st : State) : Result Obj.t * State :=
  if negb (JS.truthy_string id)
  then (Err (NotFound "Invalid patient ID"), st)
  else if negb (JS.truthy_string (Patient.name payload))
          || negb (JS.truthy_number (Patient.age payload))
          || negb (JS.truthy_string (Patient.gender payload))
          || negb (JS.truthy_string (Patient.bloodType payload))
          || negb (JS.truthy_string (Patient.medicalHistory payload))
  then (Err (InvalidPayload "Invalid patient payload"), st)
  else
    let existingPatientOpt := StableBTreeMap.get id (patientsStorage st) in
    match existingPatientOpt with
    | Some existingPatient =>
        let updatedPatient :=
          Obj.with_updatedAt (Some time)
            (Obj.spread existingPatient (Obj.of_Patient payload)) in
        let '(_, patients) :=
          StableBTreeMap.insert id updatedPatient (patientsStorage st) in
        (Ok updatedPatient, with_patients patients st)
    | None =>
        (Err (NotFound ("Couldn't update a patient with ID " +:+ id
                        +:+ ". Patient not found")), st)
    end.

(** [deletePatient(id)] *)
Definition deletePatient (id : string) (st : State)
  : Result Obj.t * State :=
  if negb (JS.truthy_string id)
  then (Err (NotFound "Invalid patient ID"), st)
  else
    let '(deletedPatientOpt, patients) :=
      StableBTreeMap.remove id (patientsStorage st) in
    match deletedPatientOpt with
    | Some deletedPatient => (Ok deletedPatient, with_patients patients st)
    | None =>
        (Err (NotFound ("Couldn't delete a patient with ID " +:+ id
                        +:+ ". Patient not found")), with_patients patients st)
    end.

(** ** Health record service *)

(** [addHealthRecord(payload: HealthRecord)].  The existence test is
    [!existingPatientOpt], the negation of an [Opt] object. *)
Definition addHealthRecord (uuid : string) (time : N)
    (payload : HealthRecord.t) (st : State) : Result HealthRecord.t * State :=
  if negb (JS.truthy_string (HealthRecord.patientID payload))
     || negb (JS.truthy_string (HealthRecord.officerID payload))
     || negb (JS.truthy_string (HealthRecord.diagnosisNotes payload))
  then (Err (InvalidPayload "Invalid health record payload"), st)
  else
    let existingPatientOpt :=
      StableBTreeMap.get (HealthRecord.patientID payload) (patientsStorage st) in
    if negb (JS.truthy_Opt existingPatientOpt)
    then (Err (NotFound ("Patient with ID " +:+ HealthRecord.patientID payload
                         +:+ " not found")), st)
    else
      let healthRecord :=
        {| HealthRecord.id := uuid;
           HealthRecord.patientID := HealthRecord.patientID payload;
           HealthRecord.uniqueNumber := HealthRecord.uniqueNumber payload;
           HealthRecord.officerID := HealthRecord.officerID payload;
           HealthRecord.diagnosisNotes := HealthRecord.diagnosisNotes payload;
           HealthRecord.labTestIDs := None;
           HealthRecord.prescriptionIDs := [];
           HealthRecord.createdAt := time |} in
      let '(_, healthRecords) :=
        StableBTreeMap.insert (HealthRecord.id healthRecord)
          (Obj.of_HealthRecord healthRecord) (healthRecordsStorage st) in
      (Ok healthRecord, with_healthRecords healthRecords st).

Definition getHealthRecords (st : State) : Result (list Obj.t) :=
  Ok (StableBTreeMap.values (healthRecordsStorage st)).

(** ** Doctor service *)

Definition addDoctor (uuid : string) (time : N) (payload : Doctor.t)
    (st : State) : Result Doctor.t * State :=
  if negb (JS.truthy_string (Doctor.name payload))
     || negb (JS.truthy_string (Doctor.specialization payload))
  then (Err (InvalidPayload "Invalid doctor payload"), st)
  else
    let doctor :=
      {| Doctor.id := uuid;
         Doctor.name := Doctor.name payload;
         Doctor.specialization := Doctor.specialization payload;
         Doctor.createdAt := time |} in
    let '(_, doctors) :=
      StableBTreeMap.insert (Doctor.id doctor) (Obj.of_Doctor doctor)
                            (doctorsStorage st) in
    (Ok doctor, with_doctors doctors st).

Definition getDoctors (st : State) : Result (list Obj.t) :=
  Ok (StableBTreeMap.values (doctorsStorage st)).

(** ** Prescription service *)

(** [addPrescription(payload: Prescription)].  After the insertion the
    memory is read, through the health-records handle, at the key
    [payload.patientID].  In
    [healthRecordOpt && healthRecordOpt.Some?.prescriptionIDs] the optional
    chain is [undefined] for [{None: null}] and for an object without that
    property, and the stored array otherwise.  The object written back has
    the eight health-record properties, read off the object found, and is
    inserted under that object's [id]. *)
Definition addPrescription (uuid : string) (time : N)
    (payload : Prescription.t) (st : State) : Result Prescription.t * State :=
  if negb (JS.truthy_string (Prescription.doctorID payload))
     || negb (JS.truthy_string (Prescription.patientID payload))
     || negb (JS.truthy_string (Prescription.medication payload))
     || negb (JS.truthy_string (Prescription.dosage payload))
  then (Err (InvalidPayload "Invalid prescription payload"), st)
  else
    let existingPatientOpt :=
      StableBTreeMap.get (Prescription.patientID payload) (patientsStorage st) in
    let existingDoctorOpt :=
      StableBTreeMap.get (Prescription.doctorID payload) (doctorsStorage st) in
    if negb (JS.truthy_Opt existingPatientOpt)
       || negb (JS.truthy_Opt existingDoctorOpt)
    then (Err (NotFound "Patient or doctor not found"), st)
    else
      let prescription :=
        {| Prescription.id := uuid;
           Prescription.doctorID := Prescription.doctorID payload;
           Prescription.patientID := Prescription.patientID payload;
           Prescription.medication := Prescription.medication payload;
           Prescription.dosage := Prescription.dosage payload;
           Prescription.createdAt := time |} in
      let '(_, prescriptions) :=
        StableBTreeMap.insert (Prescription.id prescription)
          (Obj.of_Prescription prescription) (prescriptionsStorage st) in
      let st1 := with_prescriptions prescriptions st in
      let healthRecordOpt :=
        StableBTreeMap.get (Prescription.patientID payload)
                           (healthRecordsStorage st1) in
      let st2 :=
        match healthRecordOpt with
        | Some healthRecord =>
            match Obj.prescriptionIDs healthRecord with
            | Some prescriptionIDs =>
                if JS.truthy_Opt healthRecordOpt
                   && JS.truthy_Vec prescriptionIDs
                then
                  let definedPropertiesHealthRecord :=
                    {| Obj.id := Obj.id healthRecord;
                       Obj.createdAt := Obj.createdAt healthRecord;
                       Obj.name := None;
                       Obj.age := None;
                       Obj.gender := None;
                       Obj.bloodType := None;
                       Obj.medicalHistory := None;
                       Obj.updatedAt := None;
                       Obj.patientID := Obj.patientID healthRecord;
                       Obj.uniqueNumber := Obj.uniqueNumber healthRecord;
                       Obj.officerID := Obj.officerID healthRecord;
                       Obj.diagnosisNotes := Obj.diagnosisNotes healthRecord;
                       Obj.labTestIDs := Obj.labTestIDs healthRecord;
                       Obj.prescriptionIDs :=
                         Some (prescriptionIDs
                               ++ [Prescription.id prescription])%list;
                       Obj.specialization := None;
                       Obj.doctorID := None;
                       Obj.medication := None;
                       Obj.dosage := None;
                       Obj.testType := None;
                       Obj.results := None |} in
                  let '(_, healthRecords) :=
                    StableBTreeMap.insert
                      (Obj.id definedPropertiesHealthRecord)
                      definedPropertiesHealthRecord
                      (healthRecordsStorage st1) in
                  with_healthRecords healthRecords st1
                else st1
            | None => st1
            end
        | None => st1
        end in
      (Ok prescription, st2).

Definition getPrescriptions (st : State) : Result (list Obj.t) :=
  Ok (StableBTreeMap.values (prescriptionsStorage st)).

(** ** Lab test service *)

(** [addLabTest(payload: LabTest)].  Here the guard reads
    [healthRecordOpt.Some?.labTestIDs], itself an [Opt] object when the
    object found has that property; [labTestIDs.Some || []] is the stored
    sequence, or the empty one when the property is [{None: null}].  The
    object written back is the object found with [labTestIDs] replaced: none
    of its properties is [undefined], so the filter over its entries keeps
    them all. *)
Definition addLabTest (uuid : string) (time : N) (payload : LabTest.t)
    (st : State) : Result LabTest.t * State :=
  if negb (JS.truthy_string (LabTest.doctorID payload))
     || negb (JS.truthy_string (LabTest.patientID payload))
     || negb (JS.truthy_string (LabTest.testType payload))
     || negb (JS.truthy_string (LabTest.results payload))
  then (Err (InvalidPayload "Invalid lab test payload"), st)
  else
    let existingPatientOpt :=
      StableBTreeMap.get (LabTest.patientID payload) (patientsStorage st) in
    let existingDoctorOpt :=
      StableBTreeMap.get (LabTest.doctorID payload) (doctorsStorage st) in
    if negb (JS.truthy_Opt existingPatientOpt)
       || negb (JS.truthy_Opt existingDoctorOpt)
    then (Err (NotFound "Patient or doctor not found"), st)
    else
      let labTest :=
        {| LabTest.id := uuid;
           LabTest.patientID := LabTest.patientID payload;
           LabTest.doctorID := LabTest.doctorID payload;
           LabTest.testType := LabTest.testType payload;
           LabTest.results := LabTest.results payload;
           LabTest.createdAt := time |} in
      let '(_, labTests) :=
        StableBTreeMap.insert (LabTest.id labTest) (Obj.of_LabTest labTest)
                              (labTestsStorage st) in
      let st1 := with_labTests labTests st in
      let healthRecordOpt :=
        StableBTreeMap.get (LabTest.patientID payload)
                           (healthRecordsStorage st1) in
      let st2 :=
        match healthRecordOpt with
        | Some healthRecord =>
            match Obj.labTestIDs healthRecord with
            | Some labTestIDsOpt =>
                if JS.truthy_Opt healthRecordOpt
                   && JS.truthy_Opt labTestIDsOpt
                then
                  let labTestIDs :=
                    match labTestIDsOpt with
                    | Some ids => ids
                    | None => []
                    end in
                  let updatedHealthRecord :=
                    Obj.with_labTestIDs
                      (Some (labTestIDs ++ [LabTest.id labTest])%list)
                      healthRecord in
                  let '(_, healthRecords) :=
                    StableBTreeMap.insert (Obj.id updatedHealthRecord)
                      updatedHealthRecord (healthRecordsStorage st1) in
                  with_healthRecords healthRecords st1
                else st1
            | None => st1
            end
        | None => st1
        end in
      (Ok labTest, st2).

Definition getLabTests (st : State) : Result (list Obj.t) :=
  Ok (StableBTreeMap.values (labTestsStorage st)).

(** ** The service as a transition system *)

(** The update methods a caller can invoke, with their arguments. *)
Inductive Call : Type :=
| CallAddPatient (payload : Patient.t)
| CallUpdatePatient (id : string) (payload : Patient.t)
| CallDeletePatient (id : string)
| CallAddDoctor (payload : Doctor.t)
| CallAddHealthRecord (payload : HealthRecord.t)
| CallAddPrescription (payload : Prescription.t)
| CallAddLabTest (payload : LabTest.t).

Inductive Response : Type :=
| RespPatient (r : Result Patient.t)
| RespStored (r : Result Obj.t)
| RespDoctor (r : Result Doctor.t)
| RespHealthRecord (r : Result HealthRecord.t)
| RespPrescription (r : Result Prescription.t)
| RespLabTest (r : Result LabTest.t).

Definition failed (r : Response) : bool :=
  match r with
  | RespPatient r => is_Err r
  | RespStored r => is_Err r
  | RespDoctor r => is_Err r
  | RespHealthRecord r => is_Err r
  | RespPrescription r => is_Err r
  | RespLabTest r => is_Err r
  end.

Definition dispatch (uuid : string) (time : N) (c : Call) (st : State)
  : Response * State :=
  match c with
  | CallAddPatient payload =>
      let '(r, st') := addPatient uuid time payload st in (RespPatient r, st')
  | CallUpdatePatient id payload =>
      let '(r, st') := updatePatient time id payload st in (RespStored r, st')
  | CallDeletePatient id =>
      let '(r, st') := deletePatient id st in (RespStored r, st')
  | CallAddDoctor payload =>
      let '(r, st') := addDoctor uuid time payload st in (RespDoctor r, st')
  | CallAddHealthRecord payload =>
      let '(r, st') := addHealthRecord uuid time payload st in
      (RespHealthRecord r, st')
  | CallAddPrescription payload =>
      let '(r, st') := addPrescription uuid time payload st in
      (RespPrescription r, st')
  | CallAddLabTest payload =>
      let '(r, st') := addLabTest uuid time payload st in (RespLabTest r, st')
  end.

(** The states the canister can be in: those obtained from [init] by update
    calls.  The identifier handed out by [uuidv4()] is a non-empty string. *)
Inductive reachable : State → Prop :=
| reachable_init : reachable init
| reachable_step (st : State) (uuid : string) (time : N) (c : Call) :
    reachable st → uuid ≠ "" → reachable (dispatch uuid time c st).2.

(** ** The Validator rules of the specification, for a patient payload *)

(** All of name, age, gender, bloodType and medicalHistory present and
    non-empty; age positive; gender one of the two literals; bloodType one of
    the four; medicalHistory of at most 1000 characters. *)
Definition PatientRules (payload : Patient.t) : Prop :=
  Patient.name payload ≠ ""
  ∧ Patient.gender payload ≠ ""
  ∧ Patient.bloodType payload ≠ ""
  ∧ Patient.medicalHistory payload ≠ ""
  ∧ (0 < Patient.age payload)%Z
  ∧ (Patient.gender payload = "male" ∨ Patient.gender payload = "female")
  ∧ (Patient.bloodType payload = "A" ∨ Patient.bloodType payload = "B"
     ∨ Patient.bloodType payload = "AB" ∨ Patient.bloodType payload = "O")
  ∧ (String.length (Patient.medicalHistory payload) ≤ 1000)%nat.

(** ** Derived notions used by the statements *)

(** The record [addPatient] builds from a payload. *)
Definition created_patient (uuid : string) (time : N) (payload : Patient.t)
  : Patient.t :=
  {| Patient.id := uuid;
     Patient.name := Patient.name payload;
     Patient.age := Patient.age payload;
     Patient.gender := Patient.gender payload;
     Patient.bloodType := Patient.bloodType payload;
     Patient.medicalHistory := Patient.medicalHistory payload;
     Patient.createdAt := time;
     Patient.updatedAt := None |}.

(** The object [updatePatient] builds from a payload and the object it
    found. *)
Definition updated_object (time : N) (payload : Patient.t) (existing : Obj.t)
  : Obj.t :=
  Obj.with_updatedAt (Some time) (Obj.spread existing (Obj.of_Patient payload)).

(** That object when the one found has the [Patient] fields only: the
    payload, with [updatedAt] set. *)
Definition updated_patient (time : N) (payload : Patient.t) : Patient.t :=
  {| Patient.id := Patient.id payload;
     Patient.name := Patient.name payload;
     Patient.age := Patient.age payload;
     Patient.gender := Patient.gender payload;
     Patient.bloodType := Patient.bloodType payload;
     Patient.medicalHistory := Patient.medicalHistory payload;
     Patient.createdAt := Patient.createdAt payload;
     Patient.updatedAt := Some time |}.

(** ** Sample data *)

Definition alice : Patient.t :=
  {| Patient.id := ""; Patient.name := "Alice"; Patient.age := 30;
     Patient.gender := "female"; Patient.bloodType := "O";
     Patient.medicalHistory := ""; Patient.createdAt := 0;
     Patient.updatedAt := None |}.

Definition with_medicalHistory (h : string) (p : Patient.t) : Patient.t :=
  {| Patient.id := Patient.id p; Patient.name := Patient.name p;
     Patient.age := Patient.age p; Patient.gender := Patient.gender p;
     Patient.bloodType := Patient.bloodType p; Patient.medicalHistory := h;
     Patient.createdAt := Patient.createdAt p;
     Patient.updatedAt := Patient.updatedAt p |}.

Definition with_name (n : string) (p : Patient.t) : Patient.t :=
  {| Patient.id := Patient.id p; Patient.name := n;
     Patient.age := Patient.age p; Patient.gender := Patient.gender p;
     Patient.bloodType := Patient.bloodType p;
     Patient.medicalHistory := Patient.medicalHistory p;
     Patient.createdAt := Patient.createdAt p;
     Patient.updatedAt := Patient.updatedAt p |}.

Definition alice_ok : Patient.t := with_medicalHistory "none" alice.

(** One patient, created at time 100 under the key ["p-1"]. *)
Definition st_alice : State := (addPatient "p-1" 100 alice_ok init).2.

(** An update payload that passes every Validator rule and carries, as the
    [Patient] type requires, an [id] and a [createdAt] of its own. *)
Definition impostor : Patient.t :=
  {| Patient.id := "p-2"; Patient.name := "Alice"; Patient.age := 31;
     Patient.gender := "female"; Patient.bloodType := "O";
     Patient.medicalHistory := "none"; Patient.createdAt := 500;
     Patient.updatedAt := None |}.

(** Update payloads that break one Validator rule each. *)
Definition negative_age : Patient.t :=
  {| Patient.id := "p-1"; Patient.name := "Alice"; Patient.age := -5;
     Patient.gender := "female"; Patient.bloodType := "O";
     Patient.medicalHistory := "none"; Patient.createdAt := 100;
     Patient.updatedAt := None |}.

Definition other_gender : Patient.t :=
  {| Patient.id := "p-1"; Patient.name := "Alice"; Patient.age := 30;
     Patient.gender := "other"; Patient.bloodType := "O";
     Patient.medicalHistory := "none"; Patient.createdAt := 100;
     Patient.updatedAt := None |}.

Definition other_bloodType : Patient.t :=
  {| Patient.id := "p-1"; Patient.name := "Alice"; Patient.age := 30;
     Patient.gender := "female"; Patient.bloodType := "Z";
     Patient.medicalHistory := "none"; Patient.createdAt := 100;
     Patient.updatedAt := None |}.

(** [s.repeat(n)] *)
Fixpoint repeat_string (n : nat) (s : string) : string :=
  match n with
  | O => ""
  | S n' => s +:+ repeat_string n' s
  end.

Definition long_history : Patient.t :=
  with_medicalHistory (repeat_string 1001 "x") alice.

(** A prescription and a health record that name a patient and a doctor
    nobody has registered. *)
Definition rx_ghost : Prescription.t :=
  {| Prescription.id := ""; Prescription.doctorID := "d-404";
     Prescription.patientID := "p-404"; Prescription.medication := "aspirin";
     Prescription.dosage := "one a day"; Prescription.createdAt := 0 |}.

Definition hr_ghost : HealthRecord.t :=
  {| HealthRecord.id := ""; HealthRecord.patientID := "p-404";
     HealthRecord.uniqueNumber := "n-1"; HealthRecord.officerID := "d-404";
     HealthRecord.diagnosisNotes := "flu"; HealthRecord.labTestIDs := None;
     HealthRecord.prescriptionIDs := []; HealthRecord.createdAt := 0 |}.

(** A doctor, and a health record of the patient ["p-1"]. *)
Definition dr_who : Doctor.t :=
  {| Doctor.id := ""; Doctor.name := "Who"; Doctor.specialization := "GP";
     Doctor.createdAt := 0 |}.

Definition hr_alice : HealthRecord.t :=
  {| HealthRecord.id := ""; HealthRecord.patientID := "p-1";
     HealthRecord.uniqueNumber := "n-1"; HealthRecord.officerID := "d-1";
     HealthRecord.diagnosisNotes := "flu"; HealthRecord.labTestIDs := None;
     HealthRecord.prescriptionIDs := []; HealthRecord.createdAt := 0 |}.

(** A patient under ["p-1"], a doctor under ["d-1"] and a health record
    under ["hr-1"], created in this order. *)
Definition st_linked : State :=
  (dispatch "hr-1" 102 (CallAddHealthRecord hr_alice)
     (dispatch "d-1" 101 (CallAddDoctor dr_who)
        (dispatch "p-1" 100 (CallAddPatient alice_ok) init).2).2).2.

(** A prescription and a lab test for the patient ["p-1"]. *)
Definition rx_alice : Prescription.t :=
  {| Prescription.id := ""; Prescription.doctorID := "d-1";
     Prescription.patientID := "p-1"; Prescription.medication := "aspirin";
     Prescription.dosage := "one a day"; Prescription.createdAt := 0 |}.

Definition lab_alice : LabTest.t :=
  {| LabTest.id := ""; LabTest.patientID := "p-1"; LabTest.doctorID := "d-1";
     LabTest.testType := "blood"; LabTest.results := "fine";
     LabTest.createdAt := 0 |}.

(** The same, with the key of the health record in the [patientID] field. *)
Definition rx_on_record : Prescription.t :=
  {| Prescription.id := ""; Prescription.doctorID := "d-1";
     Prescription.patientID := "hr-1"; Prescription.medication := "aspirin";
     Prescription.dosage := "one a day"; Prescription.createdAt := 0 |}.

Definition lab_on_record : LabTest.t :=
  {| LabTest.id := ""; LabTest.patientID := "hr-1"; LabTest.doctorID := "d-1";
     LabTest.testType := "blood"; LabTest.results := "fine";
     LabTest.createdAt := 0 |}.


(** ** Notions used by the further properties *)

(** The presence tests that open the [add...] methods and [updatePatient]. *)
Definition PatientPresent (payload : Patient.t) : Prop :=
  Patient.name payload ≠ "" ∧ Patient.age payload ≠ 0%Z
  ∧ Patient.gender payload ≠ "" ∧ Patient.bloodType payload ≠ ""
  ∧ Patient.medicalHistory payload ≠ "".

Definition DoctorPresent (payload : Doctor.t) : Prop :=
  Doctor.name payload ≠ "" ∧ Doctor.specialization payload ≠ "".

Definition HealthRecordPresent (payload : HealthRecord.t) : Prop :=
  HealthRecord.patientID payload ≠ "" ∧ HealthRecord.officerID payload ≠ ""
  ∧ HealthRecord.diagnosisNotes payload ≠ "".

Definition PrescriptionPresent (payload : Prescription.t) : Prop :=
  Prescription.doctorID payload ≠ "" ∧ Prescription.patientID payload ≠ ""
  ∧ Prescription.medication payload ≠ "" ∧ Prescription.dosage payload ≠ "".

Definition LabTestPresent (payload : LabTest.t) : Prop :=
  LabTest.doctorID payload ≠ "" ∧ LabTest.patientID payload ≠ ""
  ∧ LabTest.testType payload ≠ "" ∧ LabTest.results payload ≠ "".

(** The records the [add...] methods build from a payload. *)
Definition created_doctor (uuid : string) (time : N) (payload : Doctor.t)
  : Doctor.t :=
  {| Doctor.id := uuid;
     Doctor.name := Doctor.name payload;
     Doctor.specialization := Doctor.specialization payload;
     Doctor.createdAt := time |}.

Definition created_healthRecord (uuid : string) (time : N)
    (payload : HealthRecord.t) : HealthRecord.t :=
  {| HealthRecord.id := uuid;
     HealthRecord.patientID := HealthRecord.patientID payload;
     HealthRecord.uniqueNumber := HealthRecord.uniqueNumber payload;
     HealthRecord.officerID := HealthRecord.officerID payload;
     HealthRecord.diagnosisNotes := HealthRecord.diagnosisNotes payload;
     HealthRecord.labTestIDs := None;
     HealthRecord.prescriptionIDs := [];
     HealthRecord.createdAt := time |}.

Definition created_prescription (uuid : string) (time : N)
    (payload : Prescription.t) : Prescription.t :=
  {| Prescription.id := uuid;
     Prescription.doctorID := Prescription.doctorID payload;
     Prescription.patientID := Prescription.patientID payload;
     Prescription.medication := Prescription.medication payload;
     Prescription.dosage := Prescription.dosage payload;
     Prescription.createdAt := time |}.

Definition created_labTest (uuid : string) (time : N) (payload : LabTest.t)
  : LabTest.t :=
  {| LabTest.id := uuid;
     LabTest.patientID := LabTest.patientID payload;
     LabTest.doctorID := LabTest.doctorID payload;
     LabTest.testType := LabTest.testType payload;
     LabTest.results := LabTest.results payload;
     LabTest.createdAt := time |}.

(** The health record [addPrescription] writes back: the one it read, with
    the new prescription id at the end of [prescriptionIDs]. *)
Definition linked_prescription (prescriptionID : string)
    (healthRecord : HealthRecord.t) : HealthRecord.t :=
  {| HealthRecord.id := HealthRecord.id healthRecord;
     HealthRecord.patientID := HealthRecord.patientID healthRecord;
     HealthRecord.uniqueNumber := HealthRecord.uniqueNumber healthRecord;
     HealthRecord.officerID := HealthRecord.officerID healthRecord;
     HealthRecord.diagnosisNotes := HealthRecord.diagnosisNotes healthRecord;
     HealthRecord.labTestIDs := HealthRecord.labTestIDs healthRecord;
     HealthRecord.prescriptionIDs :=
       (HealthRecord.prescriptionIDs healthRecord ++ [prescriptionID])%list;
     HealthRecord.createdAt := HealthRecord.createdAt healthRecord |}.

(** The health record [addLabTest] writes back: [labTestIDs] becomes
    present, the new lab test id at the end of what it held. *)
Definition linked_labTest (labTestID : string) (healthRecord : HealthRecord.t)
  : HealthRecord.t :=
  {| HealthRecord.id := HealthRecord.id healthRecord;
     HealthRecord.patientID := HealthRecord.patientID healthRecord;
     HealthRecord.uniqueNumber := HealthRecord.uniqueNumber healthRecord;
     HealthRecord.officerID := HealthRecord.officerID healthRecord;
     HealthRecord.diagnosisNotes := HealthRecord.diagnosisNotes healthRecord;
     HealthRecord.labTestIDs :=
       Some (default [] (HealthRecord.labTestIDs healthRecord)
             ++ [labTestID])%list;
     HealthRecord.prescriptionIDs := HealthRecord.prescriptionIDs healthRecord;
     HealthRecord.createdAt := HealthRecord.createdAt healthRecord |}.

(** The sequence a query method answers with. *)
Definition listed {A : Type} (r : Result (list A)) : list A :=
  match r with
  | Ok l => l
  | Err _ => []
  end.

(** Every record of a store sits under its own id. *)
Definition keyed_by {V : Type} (id : V → string) (m : gmap string V) : Prop :=
  ∀ (key : string) (v : V), m !! key = Some v → id v = key.

(** No property that a presence test guards is present and empty (or, for
    the age, present and 0). *)
Definition guarded_fields_present (o : Obj.t) : Prop :=
  Obj.name o ≠ Some "" ∧ Obj.age o ≠ Some 0%Z ∧ Obj.gender o ≠ Some ""
  ∧ Obj.bloodType o ≠ Some "" ∧ Obj.medicalHistory o ≠ Some ""
  ∧ Obj.specialization o ≠ Some ""
  ∧ Obj.patientID o ≠ Some "" ∧ Obj.officerID o ≠ Some ""
  ∧ Obj.diagnosisNotes o ≠ Some ""
  ∧ Obj.doctorID o ≠ Some "" ∧ Obj.medication o ≠ Some ""
  ∧ Obj.dosage o ≠ Some ""
  ∧ Obj.testType o ≠ Some "" ∧ Obj.results o ≠ Some "".

(** ** The patient-only canister

    The repository also holds an earlier canister that keeps patients only.
    Its methods read like the patient methods above, with two differences in
    the types: the payload is a [PatientPayload], which has the five
    descriptive fields and neither [id] nor [createdAt] nor [updatedAt], and
    [age] is a [nat64]. *)

Module PatientOnly.

Module PatientPayload.
Record t : Type := mk {
  name : string;
  age : N;
  gender : string;
  bloodType : string;
  medicalHistory : string
}.
End PatientPayload.

Module Patient.
Record t : Type := mk {
  id : string;
  name : string;
  age : N;
  gender : string;
  bloodType : string;
  medicalHistory : string;
  createdAt : N;
  updatedAt : option N
}.
End Patient.

(** [!!n] for a [nat64]: only zero is falsy. *)
Definition truthy_nat64 (n : N) : bool := negb (N.eqb n 0).

Definition addPatient (uuid : string) (time : N) (payload : PatientPayload.t)
    (patientsStorage : gmap string Patient.t)
  : Result Patient.t * gmap string Patient.t :=
  if negb (JS.truthy_string (PatientPayload.name payload))
     || negb (truthy_nat64 (PatientPayload.age payload))
     || negb (JS.truthy_string (PatientPayload.gender payload))
     || negb (JS.truthy_string (PatientPayload.bloodType payload))
     || negb (JS.truthy_string (PatientPayload.medicalHistory payload))
  then (Err (InvalidPayload "Invalid patient payload"), patientsStorage)
  else if (PatientPayload.age payload <=? 0)%N
  then (Err (InvalidPayload "Invalid age"), patientsStorage)
  else if JS.strict_ne (PatientPayload.gender payload) "male"
          && JS.strict_ne (PatientPayload.gender payload) "female"
  then (Err (InvalidPayload "Invalid gender"), patientsStorage)
  else if JS.strict_ne (PatientPayload.bloodType payload) "A"
          && JS.strict_ne (PatientPayload.bloodType payload) "B"
          && JS.strict_ne (PatientPayload.bloodType payload) "AB"
          && JS.strict_ne (PatientPayload.bloodType payload) "O"
  then (Err (InvalidPayload "Invalid blood type"), patientsStorage)
  else if (1000 <?
           Z.of_nat (String.length (PatientPayload.medicalHistory payload)))%Z
  then (Err (InvalidPayload "Invalid medical history"), patientsStorage)
  else
    let patient :=
      {| Patient.id := uuid;
         Patient.createdAt := time;
         Patient.updatedAt := None;
         Patient.name := PatientPayload.name payload;
         Patient.age := PatientPayload.age payload;
         Patient.gender := PatientPayload.gender payload;
         Patient.bloodType := PatientPayload.bloodType payload;
         Patient.medicalHistory := PatientPayload.medicalHistory payload |} in
    let '(_, patients) :=
      StableBTreeMap.insert (Patient.id patient) patient patientsStorage in
    (Ok patient, patients).

Definition getPatients (patientsStorage : gmap string Patient.t)
  : Result (list Patient.t) :=
  Ok (StableBTreeMap.values patientsStorage).

Definition getPatient (id : string) (patientsStorage : gmap string Patient.t)
  : Result Patient.t :=
  if negb (JS.truthy_string id)
  then Err (NotFound "Invalid patient ID")
  else
    let existingPatientOpt := StableBTreeMap.get id patientsStorage in
    match existingPatientOpt with
    | Some patient => Ok patient
    | None => Err (NotFound ("The patient with ID " +:+ id +:+ " not found"))
    end.

(** In [{...existingPatient, ...payload, updatedAt}] the payload can only
    overwrite the five fields it has. *)
Definition updatePatient (time : N) (id : string) (payload : PatientPayload.t)
    (patientsStorage : gmap string Patient.t)
  : Result Patient.t * gmap string Patient.t :=
  if negb (JS.truthy_string id)
  then (Err (NotFound "Invalid patient ID"), patientsStorage)
  else if negb (JS.truthy_string (PatientPayload.name payload))
          || negb (truthy_nat64 (PatientPayload.age payload))
          || negb (JS.truthy_string (PatientPayload.gender payload))
          || negb (JS.truthy_string (PatientPayload.bloodType payload))
          || negb (JS.truthy_string (PatientPayload.medicalHistory payload))
  then (Err (InvalidPayload "Invalid patient payload"), patientsStorage)
  else
    let existingPatientOpt := StableBTreeMap.get id patientsStorage in
    match existingPatientOpt with
    | Some existingPatient =>
        let updatedPatient :=
          {| Patient.id := Patient.id existingPatient;
             Patient.name := PatientPayload.name payload;
             Patient.age := PatientPayload.age payload;
             Patient.gender := PatientPayload.gender payload;
             Patient.bloodType := PatientPayload.bloodType payload;
             Patient.medicalHistory := PatientPayload.medicalHistory payload;
             Patient.createdAt := Patient.createdAt existingPatient;
             Patient.updatedAt := Some time |} in
        let '(_, patients) :=
          StableBTreeMap.insert id updatedPatient patientsStorage in
        (Ok updatedPatient, patients)
    | None =>
        (Err (NotFound ("Couldn't update a patient with ID " +:+ id
                        +:+ ". Patient not found")), patientsStorage)
    end.

Definition deletePatient (id : string)
    (patientsStorage : gmap string Patient.t)
  : Result Patient.t * gmap string Patient.t :=
  if negb (JS.truthy_string id)
  then (Err (NotFound "Invalid patient ID"), patientsStorage)
  else
    let '(deletedPatientOpt, patients) :=
      StableBTreeMap.remove id patientsStorage in
    match deletedPatientOpt with
    | Some deletedPatient => (Ok deletedPatient, patients)
    | None =>
        (Err (NotFound ("Couldn't delete a patient with ID " +:+ id
                        +:+ ". Patient not found")), patients)
    end.

Inductive Call : Type :=
| CallAddPatient (payload : PatientPayload.t)
| CallUpdatePatient (id : string) (payload : PatientPayload.t)
| CallDeletePatient (id : string).

Definition dispatch (uuid : string) (time : N) (c : Call)
    (patientsStorage : gmap string Patient.t) : gmap string Patient.t :=
  match c with
  | CallAddPatient payload => (addPatient uuid time payload patientsStorage).2
  | CallUpdatePatient id payload =>
      (updatePatient time id payload patientsStorage).2
  | CallDeletePatient id => (deletePatient id patientsStorage).2
  end.

(** The stores this canister can hold, the generated ids being non-empty. *)
Inductive reachable : gmap string Patient.t → Prop :=
| reachable_init : reachable ∅
| reachable_step (patientsStorage : gmap string Patient.t) (uuid : string)
    (time : N) (c : Call) :
    reachable patientsStorage → uuid ≠ "" →
    reachable (dispatch uuid time c patientsStorage).

Definition PayloadPresent (payload : PatientPayload.t) : Prop :=
  PatientPayload.name payload ≠ "" ∧ PatientPayload.age payload ≠ 0%N
  ∧ PatientPayload.gender payload ≠ ""
  ∧ PatientPayload.bloodType payload ≠ ""
  ∧ PatientPayload.medicalHistory payload ≠ "".

(** Sample data. *)
Definition alice : PatientPayload.t :=
  {| PatientPayload.name := "Alice"; PatientPayload.age := 30;
     PatientPayload.gender := "female"; PatientPayload.bloodType := "O";
     PatientPayload.medicalHistory := "none" |}.

Definition alice_older : PatientPayload.t :=
  {| PatientPayload.name := "Alice"; PatientPayload.age := 31;
     PatientPayload.gender := "female"; PatientPayload.bloodType := "O";
     PatientPayload.medicalHistory := "none" |}.

Definition store_alice : gmap string Patient.t :=
  dispatch "p-1" 100 (CallAddPatient alice) ∅.

Definition store_updated : gmap string Patient.t :=
  dispatch "p-3" 200 (CallUpdatePatient "p-1" alice_older) store_alice.

End PatientOnly.

(** * Properties *)

(** ** Truthiness and the handles *)

Lemma truthy_string_true (s : string) : JS.truthy_string s = true ↔ s ≠ "".
Proof.
  unfold JS.truthy_string. rewrite negb_true_iff.
  destruct (String.eqb_spec s ""); split; congruence.
Qed.

Lemma truthy_string_false (s : string) : JS.truthy_string s = false ↔ s = "".
Proof.
  unfold JS.truthy_string. rewrite negb_false_iff. apply String.eqb_eq.
Qed.

Lemma truthy_number_true (n : Z) : JS.truthy_number n = true ↔ n ≠ 0%Z.
Proof.
  unfold JS.truthy_number. rewrite negb_true_iff. apply Z.eqb_neq.
Qed.

Lemma strict_ne_false (a b : string) : JS.strict_ne a b = false ↔ a = b.
Proof.
  unfold JS.strict_ne. rewrite negb_false_iff. apply String.eqb_eq.
Qed.

Lemma strict_ne_true (a b : string) : JS.strict_ne a b = true ↔ a ≠ b.
Proof.
  unfold JS.strict_ne. rewrite negb_true_iff. apply String.eqb_neq.
Qed.

(** The negation of an [Opt] object never holds, whichever form it has. *)
Lemma not_truthy_Opt {A : Type} (o : option A) : negb (JS.truthy_Opt o) = false.
Proof. by destruct o. Qed.

Lemma truthy_Opt_true {A : Type} (o : option A) : JS.truthy_Opt o = true.
Proof. by destruct o. Qed.

Lemma truthy_Vec_true {A : Type} (a : list A) : JS.truthy_Vec a = true.
Proof. by destruct a. Qed.

Lemma with_patients_same (st : State) : with_patients (patientsStorage st) st = st.
Proof. by destruct st. Qed.

Lemma with_healthRecords_same (st : State) :
  with_healthRecords (healthRecordsStorage st) st = st.
Proof. by destruct st. Qed.

(** Removing a key that is not there leaves a stable map as it was. *)
Lemma remove_absent {V : Type} (key : string) (m : gmap string V) :
  m !! key = None → StableBTreeMap.remove key m = (None, m).
Proof.
  intros Hk. unfold StableBTreeMap.remove. by rewrite Hk, delete_id.
Qed.

(** All five handles read the one memory. *)
Ltac unfold_handles :=
  unfold patientsStorage, healthRecordsStorage, doctorsStorage,
    prescriptionsStorage, labTestsStorage, with_patients, with_healthRecords,
    with_doctors, with_prescriptions, with_labTests in *;
  simpl in *.

(** ** The code's patient validation is the specification's rule set *)

Ltac bool_facts :=
  repeat match goal with
    | H : _ || _ = false |- _ =>
        let H1 := fresh H in
        let H2 := fresh H in
        destruct (proj1 (orb_false_iff _ _) H) as [H1 H2]; clear H
    | H : _ && _ = false |- _ => apply andb_false_iff in H
    | H : negb _ = false |- _ => apply negb_false_iff in H
    | H : JS.truthy_string _ = true |- _ => apply truthy_string_true in H
    | H : JS.truthy_string _ = false |- _ => apply truthy_string_false in H
    | H : JS.truthy_number _ = true |- _ => apply truthy_number_true in H
    | H : JS.strict_ne _ _ = true |- _ => apply strict_ne_true in H
    | H : JS.strict_ne _ _ = false |- _ => apply strict_ne_false in H
    | H : (_ <=? _)%Z = false |- _ => apply Z.leb_gt in H
    | H : (_ <? _)%Z = false |- _ => apply Z.ltb_ge in H
    end.

Lemma addPatient_accepted (uuid : string) (time : N) (payload : Patient.t)
    (st : State) :
  PatientRules payload →
  addPatient uuid time payload st
  = (Ok (created_patient uuid time payload),
     with_patients (<[uuid := Obj.of_Patient (created_patient uuid time payload)]>
                      (patientsStorage st)) st).
Proof.
  intros (Hn & Hg & Hb & Hm & Ha & Hgl & Hbl & Hlen). unfold addPatient.
  rewrite (proj2 (truthy_string_true _) Hn), (proj2 (truthy_string_true _) Hg),
    (proj2 (truthy_string_true _) Hb), (proj2 (truthy_string_true _) Hm).
  assert (JS.truthy_number (Patient.age payload) = true) as ->
    by (apply truthy_number_true; lia).
  assert ((Patient.age payload <=? 0)%Z = false) as -> by (apply Z.leb_gt; lia).
  assert (JS.strict_ne (Patient.gender payload) "male"
          && JS.strict_ne (Patient.gender payload) "female" = false) as ->.
  { destruct Hgl as [-> | ->]; reflexivity. }
  assert (JS.strict_ne (Patient.bloodType payload) "A"
          && JS.strict_ne (Patient.bloodType payload) "B"
          && JS.strict_ne (Patient.bloodType payload) "AB"
          && JS.strict_ne (Patient.bloodType payload) "O" = false) as ->.
  { destruct Hbl as [-> | [-> | [-> | ->]]]; reflexivity. }
  assert ((1000 <? Z.of_nat (String.length (Patient.medicalHistory payload)))%Z
          = false) as -> by (apply Z.ltb_ge; lia).
  reflexivity.
Qed.

Lemma addPatient_accepts_iff (uuid : string) (time : N) (payload : Patient.t)
    (st : State) :
  is_Err (addPatient uuid time payload st).1 = false ↔ PatientRules payload.
Proof.
  split; [| intros H; by rewrite (addPatient_accepted _ _ _ _ H)].
  unfold addPatient, PatientRules. intros H.
  repeat match type of H with
    | context [if ?c then _ else _] => destruct c eqn:?; simpl in H
    end; try discriminate H.
  bool_facts.
  repeat split; try done; try lia.
  all: repeat first
         [ progress bool_facts
         | match goal with H : _ ∨ _ |- _ => destruct H end ]; auto.
Qed.

Ltac unfold_methods :=
  unfold addPatient, updatePatient, deletePatient, addDoctor, addHealthRecord,
    addPrescription, addLabTest, StableBTreeMap.insert, StableBTreeMap.remove,
    StableBTreeMap.get.

Ltac method_cases :=
  unfold_methods; repeat case_match; simplify_eq/=; unfold_handles.

Ltac use_present :=
  repeat match goal with
    | H : ?s ≠ "" |- context [JS.truthy_string ?s] =>
        rewrite (proj2 (truthy_string_true s) H)
    | H : ?n ≠ 0%Z |- context [JS.truthy_number ?n] =>
        rewrite (proj2 (truthy_number_true n) H)
    end.

(** ** What each method can do to the memory *)

(** The references of a prescription are never reported missing: the guard
    negates two [Opt] objects. *)
Lemma addPrescription_never_NotFound (uuid : string) (time : N)
    (payload : Prescription.t) (st : State) :
  is_NotFound (addPrescription uuid time payload st).1 = false.
Proof.
  unfold addPrescription. rewrite !not_truthy_Opt. simpl.
  by repeat case_match.
Qed.

(** So a prescription whose four texts are present is always answered
    [Ok]. *)
Lemma addPrescription_accepted (uuid : string) (time : N)
    (payload : Prescription.t) (st : State) :
  Prescription.doctorID payload ≠ "" → Prescription.patientID payload ≠ "" →
  Prescription.medication payload ≠ "" → Prescription.dosage payload ≠ "" →
  ∃ p : Prescription.t,
    (addPrescription uuid time payload st).1 = Ok p ∧ Prescription.id p = uuid.
Proof.
  intros Hd Hp Hm Hx. unfold addPrescription. use_present.
  rewrite !not_truthy_Opt. simpl. eauto.
Qed.

Lemma addLabTest_never_NotFound (uuid : string) (time : N)
    (payload : LabTest.t) (st : State) :
  is_NotFound (addLabTest uuid time payload st).1 = false.
Proof.
  unfold addLabTest. rewrite !not_truthy_Opt. simpl.
  by repeat case_match.
Qed.

(** A health-record payload with its three texts present is always stored,
    with [labTestIDs] absent and no prescription. *)
Lemma addHealthRecord_accepted (uuid : string) (time : N)
    (payload : HealthRecord.t) (st : State) :
  HealthRecord.patientID payload ≠ "" →
  HealthRecord.officerID payload ≠ "" →
  HealthRecord.diagnosisNotes payload ≠ "" →
  ∃ hr : HealthRecord.t,
    addHealthRecord uuid time payload st
    = (Ok hr,
       with_healthRecords
         (<[uuid := Obj.of_HealthRecord hr]> (healthRecordsStorage st)) st)
    ∧ HealthRecord.id hr = uuid
    ∧ HealthRecord.labTestIDs hr = None
    ∧ HealthRecord.prescriptionIDs hr = [].
Proof.
  intros Hp Ho Hd. unfold addHealthRecord. use_present.
  rewrite not_truthy_Opt. simpl. eauto.
Qed.

(** What a successful [updatePatient] returns and stores: the object found
    under the id, overlaid with the payload and [updatedAt], under the key
    the method was called with.  Its [id] and [createdAt] are the
    payload's. *)
Lemma updatePatient_Ok (time : N) (id : string) (payload : Patient.t)
    (st st' : State) (o : Obj.t) :
  updatePatient time id payload st = (Ok o, st') →
  ∃ existing : Obj.t,
    patientsStorage st !! id = Some existing
    ∧ o = updated_object time payload existing
    ∧ Obj.id o = Patient.id payload
    ∧ Obj.createdAt o = Patient.createdAt payload
    ∧ Obj.updatedAt o = Some (Some time)
    ∧ st' = with_patients (<[id := o]> (patientsStorage st)) st.
Proof.
  unfold updatePatient, StableBTreeMap.get, StableBTreeMap.insert.
  repeat case_match; intros [= <- <-]; eauto 10.
Qed.

(** The object built over a record that has the [Patient] fields only. *)
Lemma updated_object_of_Patient (time : N) (payload existing : Patient.t) :
  updated_object time payload (Obj.of_Patient existing)
  = Obj.of_Patient (updated_patient time payload).
Proof. reflexivity. Qed.

(** [updatePatient] applies the presence test only. *)
Lemma updatePatient_accepted (time : N) (id : string) (payload : Patient.t)
    (st : State) (existingPatient : Obj.t) :
  id ≠ "" →
  patientsStorage st !! id = Some existingPatient →
  Patient.name payload ≠ "" → Patient.age payload ≠ 0%Z →
  Patient.gender payload ≠ "" → Patient.bloodType payload ≠ "" →
  Patient.medicalHistory payload ≠ "" →
  is_Err (updatePatient time id payload st).1 = false.
Proof.
  intros Hid Hex Hn Ha Hg Hb Hm. unfold updatePatient, StableBTreeMap.get.
  use_present. rewrite Hex. reflexivity.
Qed.

(** ** Enumeration of a stable map *)

Lemma values_elem {V : Type} (m : gmap string V) (v : V) :
  v ∈ StableBTreeMap.values m ↔ ∃ key : string, m !! key = Some v.
Proof.
  unfold StableBTreeMap.values. rewrite list_elem_of_fmap. split.
  - intros ([key v'] & -> & Hin). exists key. by apply elem_of_map_to_list.
  - intros [key Hkey]. exists (key, v). split; [done |].
    by apply elem_of_map_to_list.
Qed.

Lemma values_length {V : Type} (m : gmap string V) :
  length (StableBTreeMap.values m) = size m.
Proof.
  unfold StableBTreeMap.values. by rewrite length_fmap, length_map_to_list.
Qed.

Lemma reachable_st_alice : reachable st_alice.
Proof.
  exact (reachable_step init "p-1" 100 (CallAddPatient alice_ok)
           reachable_init ltac:(discriminate)).
Defined.

Lemma reachable_st_linked : reachable st_linked.
Proof.
  unfold st_linked.
  repeat (apply reachable_step; [| discriminate]).
  apply reachable_init.
Defined.

(** * The claims *)

(** C1.  The specification has [addPrescription] answer NotFound and insert
    nothing when the doctor or the patient of the payload is unknown.  On the
    code this fails: with the memory empty, the payload [rx_ghost] (all four
    texts present, doctor ["d-404"], patient ["p-404"]) is answered [Ok] and
    the prescription is stored under the generated id. *)
Theorem addPrescription_unknown_references_stored :
  patientsStorage init !! Prescription.patientID rx_ghost = None
  ∧ doctorsStorage init !! Prescription.doctorID rx_ghost = None
  ∧ (addPrescription "rx-1" 7 rx_ghost init).1
    = Ok {| Prescription.id := "rx-1"; Prescription.doctorID := "d-404";
            Prescription.patientID := "p-404";
            Prescription.medication := "aspirin";
            Prescription.dosage := "one a day"; Prescription.createdAt := 7 |}
  ∧ prescriptionsStorage init !! "rx-1" = None
  ∧ prescriptionsStorage (addPrescription "rx-1" 7 rx_ghost init).2 !! "rx-1"
    = Some (Obj.of_Prescription
              {| Prescription.id := "rx-1"; Prescription.doctorID := "d-404";
                 Prescription.patientID := "p-404";
                 Prescription.medication := "aspirin";
                 Prescription.dosage := "one a day";
                 Prescription.createdAt := 7 |}).
Proof. repeat split. Qed.

(** C2.  The specification has a successful [updatePatient(id, payload)]
    keep the record's id and set [updatedAt] to a value not before
    [createdAt].  On the code this fails: the payload's own [id] and
    [createdAt] replace the stored ones.  Updating the patient stored under
    ["p-1"] (id ["p-1"], created at 100) with [impostor] at time 200 returns,
    and stores under ["p-1"], a record whose id is ["p-2"] and whose
    [createdAt] 500 is after its [updatedAt] 200. *)
Theorem updatePatient_takes_id_from_payload :
  patientsStorage st_alice !! "p-1"
  = Some (Obj.of_Patient
            {| Patient.id := "p-1"; Patient.name := "Alice"; Patient.age := 30;
               Patient.gender := "female"; Patient.bloodType := "O";
               Patient.medicalHistory := "none"; Patient.createdAt := 100;
               Patient.updatedAt := None |})
  ∧ ∃ p : Patient.t,
      (updatePatient 200 "p-1" impostor st_alice).1 = Ok (Obj.of_Patient p)
      ∧ patientsStorage (updatePatient 200 "p-1" impostor st_alice).2 !! "p-1"
        = Some (Obj.of_Patient p)
      ∧ Patient.id p = "p-2"
      ∧ Patient.updatedAt p = Some 200%N
      ∧ Patient.createdAt p = 500%N
      ∧ (200 < Patient.createdAt p)%N.
Proof.
  split; [reflexivity |].
  exists (updated_patient 200 impostor). repeat split.
Qed.



(** C4.  Whatever update method is called (addPatient, updatePatient,
    deletePatient, addDoctor, addHealthRecord, addPrescription, addLabTest),
    on whatever arguments and stores: if the answer is an error, the five
    stores are what they were before the call. *)
Theorem failed_call_leaves_stores (uuid : string) (time : N) (c : Call)
    (st : State) :
  failed (dispatch uuid time c st).1 = true → (dispatch uuid time c st).2 = st.
Proof.
  destruct c; simpl; unfold_methods; repeat case_match; simplify_eq/=;
    try done.
  intros _. rewrite delete_id by done. apply with_patients_same.
Qed.

Lemma failed_call_leaves_stores_witness :
  failed (dispatch "p-9" 300 (CallAddPatient (with_name "" alice_ok))
            st_linked).1 = true
  ∧ (dispatch "p-9" 300 (CallAddPatient (with_name "" alice_ok)) st_linked).2
    = st_linked.
Proof.
  assert (failed (dispatch "p-9" 300 (CallAddPatient (with_name "" alice_ok))
                    st_linked).1 = true) as Hfailed by reflexivity.
  split; [exact Hfailed |].
  exact (failed_call_leaves_stores _ _ _ _ Hfailed).
Defined.

(** C5.  The specification has [updatePatient] reject, with InvalidPayload
    and no change, a payload whose age is not positive, whose gender or
    bloodType is outside the literals, or whose medicalHistory is longer than
    1000 characters.  On the code this fails: [updatePatient] only tests that
    the five fields are present.  For the patient stored under ["p-1"], an
    age of -5, the gender ["other"], the bloodType ["Z"] and a
    medicalHistory of 1001 characters are each accepted and stored. *)
Theorem updatePatient_skips_range_rules :
  (Patient.age negative_age = -5)%Z
  ∧ updatePatient 200 "p-1" negative_age st_alice
    = (Ok (Obj.of_Patient (updated_patient 200 negative_age)),
       with_patients
         {[ "p-1" := Obj.of_Patient (updated_patient 200 negative_age) ]}
         st_alice)
  ∧ Patient.gender other_gender = "other"
  ∧ updatePatient 200 "p-1" other_gender st_alice
    = (Ok (Obj.of_Patient (updated_patient 200 other_gender)),
       with_patients
         {[ "p-1" := Obj.of_Patient (updated_patient 200 other_gender) ]}
         st_alice)
  ∧ Patient.bloodType other_bloodType = "Z"
  ∧ updatePatient 200 "p-1" other_bloodType st_alice
    = (Ok (Obj.of_Patient (updated_patient 200 other_bloodType)),
       with_patients
         {[ "p-1" := Obj.of_Patient (updated_patient 200 other_bloodType) ]}
         st_alice)
  ∧ String.length (Patient.medicalHistory long_history) = 1001%nat
  ∧ updatePatient 200 "p-1" long_history st_alice
    = (Ok (Obj.of_Patient (updated_patient 200 long_history)),
       with_patients
         {[ "p-1" := Obj.of_Patient (updated_patient 200 long_history) ]}
         st_alice).
Proof. repeat split; by vm_compute. Qed.

(** C6.  The specification has [addHealthRecord] answer NotFound and insert
    nothing when the payload's patient is unknown.  On the code this fails:
    with no patient registered, the payload [hr_ghost] (patientID ["p-404"],
    officerID and diagnosisNotes present) is answered [Ok] and the record is
    stored, with [labTestIDs] absent and no prescription. *)
Theorem addHealthRecord_unknown_patient_stored :
  patientsStorage init !! HealthRecord.patientID hr_ghost = None
  ∧ addHealthRecord "hr-1" 7 hr_ghost init
    = (Ok {| HealthRecord.id := "hr-1"; HealthRecord.patientID := "p-404";
             HealthRecord.uniqueNumber := "n-1";
             HealthRecord.officerID := "d-404";
             HealthRecord.diagnosisNotes := "flu";
             HealthRecord.labTestIDs := None;
             HealthRecord.prescriptionIDs := [];
             HealthRecord.createdAt := 7 |},
       with_healthRecords
         {[ "hr-1" := Obj.of_HealthRecord
                        {| HealthRecord.id := "hr-1";
                           HealthRecord.patientID := "p-404";
                           HealthRecord.uniqueNumber := "n-1";
                           HealthRecord.officerID := "d-404";
                           HealthRecord.diagnosisNotes := "flu";
                           HealthRecord.labTestIDs := None;
                           HealthRecord.prescriptionIDs := [];
                           HealthRecord.createdAt := 7 |} ]} init).
Proof. split; reflexivity. Qed.

(** C7, as the specification words it: [addPatient] on the payload
    {name: "Alice", age: 30, gender: "female", bloodType: "O",
    medicalHistory: ""} returns [Ok] with [updatedAt] absent, and with the
    name emptied it returns InvalidPayload.  The first half is false: the
    empty medicalHistory fails the presence test. *)
Lemma addPatient_alice_example_refuted :
  ¬ ((∃ p : Patient.t,
        (addPatient "p-1" 100 alice init).1 = Ok p ∧ Patient.updatedAt p = None)
     ∧ is_InvalidPayload (addPatient "p-1" 100 (with_name "" alice) init).1
       = true).
Proof. intros [(p & Hp & _) _]. vm_compute in Hp. discriminate Hp. Qed.

(** C7, amended.  [addPatient] on the payload {name: "Alice", age: 30,
    gender: "female", bloodType: "O", medicalHistory: ""} returns an
    InvalidPayload error and stores nothing.  With the medicalHistory
    replaced by any non-empty text of at most 1000 characters it returns [Ok]
    with a Patient named "Alice", aged 30, whose [updatedAt] is absent; and
    that call with the name replaced by the empty string returns an
    InvalidPayload error. *)
Theorem addPatient_alice_example (uuid : string) (time : N) (st : State)
    (history : string) :
  history ≠ "" → (String.length history ≤ 1000)%nat →
  addPatient uuid time alice st
  = (Err (InvalidPayload "Invalid patient payload"), st)
  ∧ (∃ (p : Patient.t) (st' : State),
       addPatient uuid time (with_medicalHistory history alice) st = (Ok p, st')
       ∧ Patient.name p = "Alice"
       ∧ Patient.age p = 30%Z
       ∧ Patient.updatedAt p = None)
  ∧ addPatient uuid time (with_name "" (with_medicalHistory history alice)) st
    = (Err (InvalidPayload "Invalid patient payload"), st).
Proof.
  intros Hne Hlen. split; [reflexivity |]. split; [| reflexivity].
  exists (created_patient uuid time (with_medicalHistory history alice)).
  eexists. split; [| done].
  apply addPatient_accepted. unfold PatientRules. simpl.
  repeat split; try discriminate; try lia; auto.
Qed.

Lemma addPatient_alice_example_witness :
  "none" ≠ "" ∧ (String.length "none" ≤ 1000)%nat
  ∧ addPatient "p-1" 100 alice init
    = (Err (InvalidPayload "Invalid patient payload"), init)
  ∧ (∃ (p : Patient.t) (st' : State),
       addPatient "p-1" 100 (with_medicalHistory "none" alice) init = (Ok p, st')
       ∧ Patient.name p = "Alice"
       ∧ Patient.age p = 30%Z
       ∧ Patient.updatedAt p = None)
  ∧ addPatient "p-1" 100 (with_name "" (with_medicalHistory "none" alice)) init
    = (Err (InvalidPayload "Invalid patient payload"), init).
Proof.
  assert ("none" ≠ "") as Hne by discriminate.
  assert (String.length "none" ≤ 1000)%nat as Hlen by (simpl; lia).
  split; [exact Hne |]. split; [exact Hlen |].
  exact (addPatient_alice_example "p-1" 100 init "none" Hne Hlen).
Defined.


(** C9.  The specification has [addPrescription] leave the patients, doctors
    and lab-test stores unchanged, and [addLabTest] the patients, doctors and
    prescriptions stores.  On the code this fails: all five handles are
    opened on memory id 0, so the record a method inserts is seen through
    every handle.  From the empty canister, after
    [addPrescription(rx_ghost)] the prescription is under ["rx-1"] in the
    patients, doctors and lab-test stores and [getPatients] lists it; after
    [addLabTest(lab_alice)] the lab test is under ["lab-1"] in the patients,
    doctors and prescriptions stores and [getPrescriptions] lists it. *)
Theorem child_record_seen_through_every_handle :
  patientsStorage init = ∅ ∧ doctorsStorage init = ∅
  ∧ prescriptionsStorage init = ∅ ∧ labTestsStorage init = ∅
  ∧ (let st' := (addPrescription "rx-1" 7 rx_ghost init).2 in
     patientsStorage st' !! "rx-1"
     = Some (Obj.of_Prescription (created_prescription "rx-1" 7 rx_ghost))
     ∧ doctorsStorage st' !! "rx-1"
       = Some (Obj.of_Prescription (created_prescription "rx-1" 7 rx_ghost))
     ∧ labTestsStorage st' !! "rx-1"
       = Some (Obj.of_Prescription (created_prescription "rx-1" 7 rx_ghost))
     ∧ listed (getPatients st')
       = [Obj.of_Prescription (created_prescription "rx-1" 7 rx_ghost)])
  ∧ (let st' := (addLabTest "lab-1" 9 lab_alice init).2 in
     patientsStorage st' !! "lab-1"
     = Some (Obj.of_LabTest (created_labTest "lab-1" 9 lab_alice))
     ∧ doctorsStorage st' !! "lab-1"
       = Some (Obj.of_LabTest (created_labTest "lab-1" 9 lab_alice))
     ∧ prescriptionsStorage st' !! "lab-1"
       = Some (Obj.of_LabTest (created_labTest "lab-1" 9 lab_alice))
     ∧ listed (getPrescriptions st')
       = [Obj.of_LabTest (created_labTest "lab-1" 9 lab_alice)]).
Proof. repeat split; by vm_compute. Qed.

(** C10.  For the empty-string id, [getPatient], [updatePatient] and
    [deletePatient] each return the NotFound error "Invalid patient ID",
    the same for all store contents and (for [updatePatient]) all payloads,
    and leave every store as it was. *)
Theorem empty_id_NotFound (time : N) (payload : Patient.t) (st : State) :
  getPatient "" st = Err (NotFound "Invalid patient ID")
  ∧ updatePatient time "" payload st
    = (Err (NotFound "Invalid patient ID"), st)
  ∧ deletePatient "" st = (Err (NotFound "Invalid patient ID"), st).
Proof. repeat split. Qed.

(** * Further properties of the code *)

(** ** Doctors *)

(** X1.  A doctor payload whose name and specialization are present is
    always accepted: the doctor gets the generated id and the current time,
    is stored under that id and appears in the answer of [getDoctors].  The
    five handles being opened on one memory, it appears as well in the
    answers of [getPatients], [getHealthRecords], [getPrescriptions] and
    [getLabTests].  What the memory holds under every other key stays. *)
Theorem addDoctor_then_getDoctors (uuid : string) (time : N)
    (payload : Doctor.t) (st : State) :
  DoctorPresent payload →
  ∃ st' : State,
    addDoctor uuid time payload st = (Ok (created_doctor uuid time payload), st')
    ∧ doctorsStorage st' !! uuid
      = Some (Obj.of_Doctor (created_doctor uuid time payload))
    ∧ Obj.of_Doctor (created_doctor uuid time payload) ∈ listed (getDoctors st')
    ∧ Obj.of_Doctor (created_doctor uuid time payload)
      ∈ listed (getPatients st')
    ∧ Obj.of_Doctor (created_doctor uuid time payload)
      ∈ listed (getHealthRecords st')
    ∧ Obj.of_Doctor (created_doctor uuid time payload)
      ∈ listed (getPrescriptions st')
    ∧ Obj.of_Doctor (created_doctor uuid time payload)
      ∈ listed (getLabTests st')
    ∧ ∀ other : string,
        other ≠ uuid → doctorsStorage st' !! other = doctorsStorage st !! other.
Proof.
  intros [Hn Hs]. unfold addDoctor, StableBTreeMap.insert. use_present. simpl.
  eexists. split; [reflexivity |]. unfold_handles.
  assert (Obj.of_Doctor (created_doctor uuid time payload)
          ∈ StableBTreeMap.values
              (<[uuid := Obj.of_Doctor (created_doctor uuid time payload)]>
                 (stable_memory_0 st))) as Hin.
  { apply values_elem. exists uuid. by rewrite lookup_insert_eq. }
  split_and!; try done.
  - by rewrite lookup_insert_eq.
  - intros other Hother. by rewrite lookup_insert_ne.
Qed.

Lemma addDoctor_then_getDoctors_witness :
  DoctorPresent dr_who
  ∧ ∃ st' : State,
      addDoctor "d-1" 101 dr_who st_alice
      = (Ok (created_doctor "d-1" 101 dr_who), st')
      ∧ doctorsStorage st' !! "d-1"
        = Some (Obj.of_Doctor (created_doctor "d-1" 101 dr_who))
      ∧ Obj.of_Doctor (created_doctor "d-1" 101 dr_who)
        ∈ listed (getDoctors st')
      ∧ Obj.of_Doctor (created_doctor "d-1" 101 dr_who)
        ∈ listed (getPatients st')
      ∧ Obj.of_Doctor (created_doctor "d-1" 101 dr_who)
        ∈ listed (getHealthRecords st')
      ∧ Obj.of_Doctor (created_doctor "d-1" 101 dr_who)
        ∈ listed (getPrescriptions st')
      ∧ Obj.of_Doctor (created_doctor "d-1" 101 dr_who)
        ∈ listed (getLabTests st')
      ∧ ∀ other : string,
          other ≠ "d-1" →
          doctorsStorage st' !! other = doctorsStorage st_alice !! other.
Proof.
  assert (DoctorPresent dr_who) as Hpresent by (split; discriminate).
  split; [exact Hpresent |].
  exact (addDoctor_then_getDoctors "d-1" 101 dr_who st_alice Hpresent).
Defined.

(** X2.  [addDoctor] fails exactly when the name or the specialization of
    the payload is empty; the error is then InvalidPayload "Invalid doctor
    payload" and no store is touched. *)
Theorem addDoctor_fails_iff (uuid : string) (time : N) (payload : Doctor.t)
    (st : State) :
  (Doctor.name payload = "" ∨ Doctor.specialization payload = "")
  ↔ addDoctor uuid time payload st
    = (Err (InvalidPayload "Invalid doctor payload"), st).
Proof.
  unfold addDoctor. split.
  - intros [-> | ->]; simpl; [done |]. by rewrite orb_true_r.
  - destruct (JS.truthy_string (Doctor.name payload)) eqn:Hn;
      destruct (JS.truthy_string (Doctor.specialization payload)) eqn:Hs;
      simpl; bool_facts; auto.
    discriminate.
Qed.

(** ** Patients: enumeration and retrieval *)

(** X3.  After an accepted [addPatient], [getPatients] lists the new
    patient; it lists one record more than before when the generated id was
    not yet a key of the store, and as many as before when it was (the record
    under that key is replaced). *)
Theorem addPatient_getPatients_count (uuid : string) (time : N)
    (payload : Patient.t) (st : State) :
  PatientRules payload →
  let st' := (addPatient uuid time payload st).2 in
  Obj.of_Patient (created_patient uuid time payload) ∈ listed (getPatients st')
  ∧ length (listed (getPatients st'))
    = match patientsStorage st !! uuid with
      | Some _ => length (listed (getPatients st))
      | None => S (length (listed (getPatients st)))
      end.
Proof.
  intros Hrules. rewrite (addPatient_accepted _ _ _ _ Hrules). simpl.
  unfold_handles. split.
  - apply values_elem. exists uuid. by rewrite lookup_insert_eq.
  - rewrite !values_length, map_size_insert. by destruct (_ !! _).
Qed.

Lemma addPatient_getPatients_count_witness :
  PatientRules alice_ok
  ∧ Obj.of_Patient (created_patient "p-2" 150 alice_ok)
    ∈ listed (getPatients (addPatient "p-2" 150 alice_ok st_alice).2)
  ∧ length (listed (getPatients (addPatient "p-2" 150 alice_ok st_alice).2))
    = 2%nat
  ∧ length (listed (getPatients (addPatient "p-1" 150 alice_ok st_alice).2))
    = 1%nat.
Proof.
  assert (PatientRules alice_ok) as Hrules.
  { unfold PatientRules. simpl. repeat split; try discriminate; try lia; auto. }
  split; [exact Hrules |].
  split; [exact (proj1 (addPatient_getPatients_count "p-2" 150 alice_ok
                          st_alice Hrules)) |].
  split.
  - exact (proj2 (addPatient_getPatients_count "p-2" 150 alice_ok st_alice
                    Hrules)).
  - exact (proj2 (addPatient_getPatients_count "p-1" 150 alice_ok st_alice
                    Hrules)).
Defined.

(** X4.  In every state whose memory has no entry under the empty key,
    [getPatients] lists exactly the records that [getPatient] can return: a
    record is in the answer of [getPatients] if and only if [getPatient]
    returns it for some id.  (A record under the empty key is listed, and
    [getPatient] refuses the empty id.) *)
Theorem getPatients_lists_what_getPatient_finds (st : State) (p : Obj.t) :
  patientsStorage st !! "" = None →
  p ∈ listed (getPatients st) ↔ ∃ id : string, getPatient id st = Ok p.
Proof.
  intros Hkeys. simpl. rewrite values_elem. split.
  - intros [key Hkey]. exists key.
    assert (key ≠ "") as Hne by (intros ->; congruence).
    unfold getPatient, StableBTreeMap.get. use_present. simpl. by rewrite Hkey.
  - intros [id Hget]. exists id. revert Hget.
    unfold getPatient, StableBTreeMap.get.
    repeat case_match; intros [= <-]; done.
Qed.

Lemma getPatients_lists_what_getPatient_finds_witness :
  patientsStorage st_alice !! "" = None
  ∧ (Obj.of_Patient (created_patient "p-1" 100 alice_ok)
     ∈ listed (getPatients st_alice)
     ↔ ∃ id : string,
         getPatient id st_alice
         = Ok (Obj.of_Patient (created_patient "p-1" 100 alice_ok))).
Proof.
  assert (patientsStorage st_alice !! "" = None) as Hkeys by reflexivity.
  split; [exact Hkeys |].
  exact (getPatients_lists_what_getPatient_finds st_alice
           (Obj.of_Patient (created_patient "p-1" 100 alice_ok)) Hkeys).
Defined.

(** ** Lab tests and the linkage to health records *)

(** X5.  A lab-test payload whose four texts are present is always answered
    [Ok], whether or not its patient and doctor exist: the existence guard
    of [addLabTest] negates two [Opt] objects and never fires.  The lab test
    is stored under the generated id, unless the record found under the
    payload's patientID carries the generated id as its own id (the linkage
    writes that record back under its id). *)
Theorem addLabTest_ignores_references (uuid : string) (time : N)
    (payload : LabTest.t) (st : State) :
  LabTestPresent payload →
  (addLabTest uuid time payload st).1 = Ok (created_labTest uuid time payload)
  ∧ ((∀ found : Obj.t,
        healthRecordsStorage st !! LabTest.patientID payload = Some found →
        Obj.id found ≠ uuid) →
     labTestsStorage (addLabTest uuid time payload st).2 !! uuid
     = Some (Obj.of_LabTest (created_labTest uuid time payload))).
Proof.
  intros (Hd & Hp & Ht & Hr).
  unfold addLabTest, StableBTreeMap.insert, StableBTreeMap.get.
  use_present. rewrite !not_truthy_Opt. simpl.
  split; [reflexivity |]. intros Hfresh. unfold_handles.
  destruct (decide (uuid = LabTest.patientID payload)) as [Heq | Hne].
  - rewrite <- Heq, lookup_insert_eq. simpl. rewrite lookup_insert_eq.
    unfold created_labTest. by rewrite <- Heq.
  - rewrite lookup_insert_ne by done.
    destruct (stable_memory_0 st !! LabTest.patientID payload)
      as [found |] eqn:Hfound; simpl; [| by rewrite lookup_insert_eq].
    destruct (Obj.labTestIDs found) as [ids |]; simpl;
      [| by rewrite lookup_insert_eq].
    rewrite ?truthy_Opt_true. simpl.
    rewrite lookup_insert_ne by (by apply Hfresh).
    by rewrite lookup_insert_eq.
Qed.

Lemma addLabTest_ignores_references_witness :
  LabTestPresent lab_alice
  ∧ patientsStorage init !! LabTest.patientID lab_alice = None
  ∧ doctorsStorage init !! LabTest.doctorID lab_alice = None
  ∧ (addLabTest "lab-1" 9 lab_alice init).1
    = Ok (created_labTest "lab-1" 9 lab_alice)
  ∧ labTestsStorage (addLabTest "lab-1" 9 lab_alice init).2 !! "lab-1"
    = Some (Obj.of_LabTest (created_labTest "lab-1" 9 lab_alice)).
Proof.
  assert (LabTestPresent lab_alice) as Hpresent
    by (repeat split; discriminate).
  assert (∀ found : Obj.t,
            healthRecordsStorage init !! LabTest.patientID lab_alice
            = Some found → Obj.id found ≠ "lab-1") as Hfresh
    by (intros found Hfound; discriminate Hfound).
  split; [exact Hpresent |].
  split; [reflexivity |]. split; [reflexivity |].
  destruct (addLabTest_ignores_references "lab-1" 9 lab_alice init Hpresent)
    as [Hok Hstored].
  split; [exact Hok | exact (Hstored Hfresh)].
Defined.

(** X6.  An accepted [addPrescription] inserts the prescription under the
    generated id and then reads the memory at the payload's patientID.  When
    a patient record is stored there (the patient exists), nothing else
    changes: the record found has no [prescriptionIDs], and no health record
    is linked.  Nor does anything else change when nothing is stored there.
    When a health record is stored there, it is written back under its own
    id with the new prescription id at the end of its [prescriptionIDs]. *)
Theorem addPrescription_linkage (uuid : string) (time : N)
    (payload : Prescription.t) (st : State) :
  PrescriptionPresent payload →
  uuid ≠ Prescription.patientID payload →
  let st1 :=
    with_prescriptions
      (<[uuid := Obj.of_Prescription (created_prescription uuid time payload)]>
         (prescriptionsStorage st)) st in
  (∀ patient : Patient.t,
     patientsStorage st !! Prescription.patientID payload
     = Some (Obj.of_Patient patient) →
     (addPrescription uuid time payload st).2 = st1)
  ∧ (healthRecordsStorage st !! Prescription.patientID payload = None →
     (addPrescription uuid time payload st).2 = st1)
  ∧ (∀ record : HealthRecord.t,
       healthRecordsStorage st !! Prescription.patientID payload
       = Some (Obj.of_HealthRecord record) →
       (addPrescription uuid time payload st).2
       = with_healthRecords
           (<[HealthRecord.id record :=
                Obj.of_HealthRecord (linked_prescription uuid record)]>
              (healthRecordsStorage st1)) st1).
Proof.
  intros (Hd & Hp & Hm & Hx) Hne. simpl.
  unfold addPrescription, StableBTreeMap.insert, StableBTreeMap.get.
  use_present. rewrite !not_truthy_Opt. simpl. unfold_handles.
  rewrite lookup_insert_ne by done.
  split_and!.
  - by intros patient ->.
  - by intros ->.
  - intros record ->. simpl. by rewrite truthy_Vec_true.
Qed.

Lemma addPrescription_linkage_witness :
  PrescriptionPresent rx_alice ∧ "rx-1" ≠ Prescription.patientID rx_alice
  ∧ PrescriptionPresent rx_on_record
  ∧ "rx-1" ≠ Prescription.patientID rx_on_record
  ∧ patientsStorage st_linked !! "p-1"
    = Some (Obj.of_Patient (created_patient "p-1" 100 alice_ok))
  ∧ healthRecordsStorage st_linked !! "hr-1"
    = Some (Obj.of_HealthRecord (created_healthRecord "hr-1" 102 hr_alice))
  ∧ (addPrescription "rx-1" 103 rx_alice st_linked).2
    = with_prescriptions
        (<["rx-1" := Obj.of_Prescription
                       (created_prescription "rx-1" 103 rx_alice)]>
           (prescriptionsStorage st_linked)) st_linked
  ∧ healthRecordsStorage (addPrescription "rx-1" 103 rx_on_record st_linked).2
      !! "hr-1"
    = Some (Obj.of_HealthRecord
              (linked_prescription "rx-1"
                 (created_healthRecord "hr-1" 102 hr_alice))).
Proof.
  assert (PrescriptionPresent rx_alice) as H1 by (repeat split; discriminate).
  assert ("rx-1" ≠ Prescription.patientID rx_alice) as H2 by discriminate.
  assert (PrescriptionPresent rx_on_record) as H3
    by (repeat split; discriminate).
  assert ("rx-1" ≠ Prescription.patientID rx_on_record) as H4
    by discriminate.
  assert (patientsStorage st_linked !! "p-1"
          = Some (Obj.of_Patient (created_patient "p-1" 100 alice_ok))) as H5
    by reflexivity.
  assert (healthRecordsStorage st_linked !! "hr-1"
          = Some (Obj.of_HealthRecord
                    (created_healthRecord "hr-1" 102 hr_alice))) as H6
    by reflexivity.
  repeat (split; [assumption |]).
  split.
  - exact (proj1 (addPrescription_linkage "rx-1" 103 rx_alice st_linked H1 H2)
             _ H5).
  - rewrite (proj2 (proj2 (addPrescription_linkage "rx-1" 103 rx_on_record
                             st_linked H3 H4)) _ H6).
    reflexivity.
Defined.

(** X7.  An accepted [addLabTest] inserts the lab test under the generated
    id and then reads the memory at the payload's patientID.  When a patient
    record is stored there (the patient exists), or nothing is, nothing else
    changes.  When a health record is stored there, it is written back under
    its own id, its [labTestIDs] now present and holding its former ids
    (none, when it was absent) followed by the new lab test id. *)
Theorem addLabTest_linkage (uuid : string) (time : N) (payload : LabTest.t)
    (st : State) :
  LabTestPresent payload →
  uuid ≠ LabTest.patientID payload →
  let st1 :=
    with_labTests
      (<[uuid := Obj.of_LabTest (created_labTest uuid time payload)]>
         (labTestsStorage st)) st in
  (∀ patient : Patient.t,
     patientsStorage st !! LabTest.patientID payload
     = Some (Obj.of_Patient patient) →
     (addLabTest uuid time payload st).2 = st1)
  ∧ (healthRecordsStorage st !! LabTest.patientID payload = None →
     (addLabTest uuid time payload st).2 = st1)
  ∧ (∀ record : HealthRecord.t,
       healthRecordsStorage st !! LabTest.patientID payload
       = Some (Obj.of_HealthRecord record) →
       (addLabTest uuid time payload st).2
       = with_healthRecords
           (<[HealthRecord.id record :=
                Obj.of_HealthRecord (linked_labTest uuid record)]>
              (healthRecordsStorage st1)) st1).
Proof.
  intros (Hd & Hp & Ht & Hr) Hne. simpl.
  unfold addLabTest, StableBTreeMap.insert, StableBTreeMap.get.
  use_present. rewrite !not_truthy_Opt. simpl. unfold_handles.
  rewrite lookup_insert_ne by done.
  split_and!.
  - by intros patient ->.
  - by intros ->.
  - intros record ->. simpl. rewrite truthy_Opt_true.
    unfold linked_labTest. by destruct (HealthRecord.labTestIDs record).
Qed.

Lemma addLabTest_linkage_witness :
  LabTestPresent lab_alice ∧ "lab-1" ≠ LabTest.patientID lab_alice
  ∧ LabTestPresent lab_on_record
  ∧ "lab-1" ≠ LabTest.patientID lab_on_record
  ∧ patientsStorage st_linked !! "p-1"
    = Some (Obj.of_Patient (created_patient "p-1" 100 alice_ok))
  ∧ healthRecordsStorage st_linked !! "hr-1"
    = Some (Obj.of_HealthRecord (created_healthRecord "hr-1" 102 hr_alice))
  ∧ (addLabTest "lab-1" 103 lab_alice st_linked).2
    = with_labTests
        (<["lab-1" := Obj.of_LabTest (created_labTest "lab-1" 103 lab_alice)]>
           (labTestsStorage st_linked)) st_linked
  ∧ healthRecordsStorage (addLabTest "lab-1" 103 lab_on_record st_linked).2
      !! "hr-1"
    = Some (Obj.of_HealthRecord
              (linked_labTest "lab-1"
                 (created_healthRecord "hr-1" 102 hr_alice))).
Proof.
  assert (LabTestPresent lab_alice) as H1 by (repeat split; discriminate).
  assert ("lab-1" ≠ LabTest.patientID lab_alice) as H2 by discriminate.
  assert (LabTestPresent lab_on_record) as H3
    by (repeat split; discriminate).
  assert ("lab-1" ≠ LabTest.patientID lab_on_record) as H4 by discriminate.
  assert (patientsStorage st_linked !! "p-1"
          = Some (Obj.of_Patient (created_patient "p-1" 100 alice_ok))) as H5
    by reflexivity.
  assert (healthRecordsStorage st_linked !! "hr-1"
          = Some (Obj.of_HealthRecord
                    (created_healthRecord "hr-1" 102 hr_alice))) as H6
    by reflexivity.
  repeat (split; [assumption |]).
  split.
  - exact (proj1 (addLabTest_linkage "lab-1" 103 lab_alice st_linked H1 H2)
             _ H5).
  - rewrite (proj2 (proj2 (addLabTest_linkage "lab-1" 103 lab_on_record
                             st_linked H3 H4)) _ H6).
    reflexivity.
Defined.

(** X8.  A health record is stored under its generated id, and
    [addPrescription] looks for it under the patient's id.  So when a health
    record is created for a patient under an id other than the patient's, and
    what sits under the patient's id, if anything, has no [prescriptionIDs]
    (the patient's own record, say), a prescription then added for that
    patient under another generated id is not linked: the health record
    keeps an empty [prescriptionIDs]. *)
Theorem healthRecord_not_linked_under_own_id (uuid1 uuid2 : string)
    (time1 time2 : N) (record : HealthRecord.t) (rx : Prescription.t)
    (st : State) :
  HealthRecordPresent record → PrescriptionPresent rx →
  Prescription.patientID rx = HealthRecord.patientID record →
  (∀ found : Obj.t,
     healthRecordsStorage st !! HealthRecord.patientID record = Some found →
     Obj.prescriptionIDs found = None) →
  uuid1 ≠ HealthRecord.patientID record →
  uuid1 ≠ uuid2 →
  let st1 := (addHealthRecord uuid1 time1 record st).2 in
  let st2 := (addPrescription uuid2 time2 rx st1).2 in
  is_Err (addPrescription uuid2 time2 rx st1).1 = false
  ∧ healthRecordsStorage st2 !! uuid1
    = Some (Obj.of_HealthRecord (created_healthRecord uuid1 time1 record))
  ∧ HealthRecord.prescriptionIDs (created_healthRecord uuid1 time1 record) = [].
Proof.
  intros (Hp & Ho & Hn) (Hd & Hp' & Hm & Hx) Hsame Hplain Hne Hdistinct. simpl.
  unfold addHealthRecord, StableBTreeMap.insert, StableBTreeMap.get.
  use_present. rewrite not_truthy_Opt. simpl.
  unfold addPrescription, StableBTreeMap.insert, StableBTreeMap.get.
  use_present. rewrite !not_truthy_Opt. simpl. unfold_handles.
  split; [done |]. split; [| done]. rewrite Hsame.
  destruct (decide (uuid2 = HealthRecord.patientID record)) as [Heq | Hother].
  - subst uuid2. rewrite lookup_insert_eq. simpl.
    rewrite lookup_insert_ne by congruence. by rewrite lookup_insert_eq.
  - rewrite !lookup_insert_ne by congruence.
    destruct (stable_memory_0 st !! HealthRecord.patientID record)
      as [found |] eqn:Hfound; simpl.
    + rewrite (Hplain found eq_refl). simpl.
      rewrite lookup_insert_ne by congruence. by rewrite lookup_insert_eq.
    + rewrite lookup_insert_ne by congruence. by rewrite lookup_insert_eq.
Qed.

Lemma healthRecord_not_linked_under_own_id_witness :
  HealthRecordPresent hr_alice ∧ PrescriptionPresent rx_alice
  ∧ Prescription.patientID rx_alice = HealthRecord.patientID hr_alice
  ∧ healthRecordsStorage st_alice !! HealthRecord.patientID hr_alice
    = Some (Obj.of_Patient (created_patient "p-1" 100 alice_ok))
  ∧ "hr-5" ≠ HealthRecord.patientID hr_alice
  ∧ "hr-5" ≠ "rx-5"
  ∧ is_Err (addPrescription "rx-5" 111 rx_alice
              (addHealthRecord "hr-5" 110 hr_alice st_alice).2).1 = false
  ∧ healthRecordsStorage
      (addPrescription "rx-5" 111 rx_alice
         (addHealthRecord "hr-5" 110 hr_alice st_alice).2).2 !! "hr-5"
    = Some (Obj.of_HealthRecord (created_healthRecord "hr-5" 110 hr_alice))
  ∧ HealthRecord.prescriptionIDs (created_healthRecord "hr-5" 110 hr_alice)
    = [].
Proof.
  assert (HealthRecordPresent hr_alice) as H1 by (repeat split; discriminate).
  assert (PrescriptionPresent rx_alice) as H2 by (repeat split; discriminate).
  assert (Prescription.patientID rx_alice = HealthRecord.patientID hr_alice)
    as H3 by reflexivity.
  assert (healthRecordsStorage st_alice !! HealthRecord.patientID hr_alice
          = Some (Obj.of_Patient (created_patient "p-1" 100 alice_ok))) as H4 by reflexivity.
  assert (∀ found : Obj.t,
            healthRecordsStorage st_alice !! HealthRecord.patientID hr_alice
            = Some found → Obj.prescriptionIDs found = None) as H4'
    by (intros found Hfound; rewrite H4 in Hfound;
        injection Hfound as <-; reflexivity).
  assert ("hr-5" ≠ HealthRecord.patientID hr_alice) as H5 by discriminate.
  assert ("hr-5" ≠ "rx-5") as H6 by discriminate.
  repeat (split; [assumption |]).
  exact (healthRecord_not_linked_under_own_id "hr-5" "rx-5" 110 111 hr_alice
           rx_alice st_alice H1 H2 H3 H4' H5 H6).
Defined.

(** ** Patients: update and delete *)

(** X9.  [updatePatient] tests the payload before it looks the id up: for a
    non-empty id, a payload with a field missing (empty name, gender,
    bloodType or medicalHistory, or age 0) is answered InvalidPayload whether
    or not anything is stored under the id, and leaves the memory alone.  A
    payload with all fields present is answered NotFound, the memory left
    alone, exactly when nothing at all is stored under the id; when a record
    of any kind is (a doctor's, say, the handles sharing one memory), the
    answer is [Ok] with that record overlaid by the payload. *)
Theorem updatePatient_rejections (time : N) (id : string)
    (payload : Patient.t) (st : State) :
  id ≠ "" →
  (¬ PatientPresent payload →
   updatePatient time id payload st
   = (Err (InvalidPayload "Invalid patient payload"), st))
  ∧ (PatientPresent payload → patientsStorage st !! id = None →
     updatePatient time id payload st
     = (Err (NotFound ("Couldn't update a patient with ID " +:+ id
                       +:+ ". Patient not found")), st))
  ∧ (PatientPresent payload →
     ∀ found : Obj.t,
       doctorsStorage st !! id = Some found →
       (updatePatient time id payload st).1
       = Ok (updated_object time payload found)).
Proof.
  intros Hid. unfold updatePatient, StableBTreeMap.get. use_present. simpl.
  unfold_handles. split_and!.
  - intros Hmissing.
    destruct (negb (JS.truthy_string (Patient.name payload))
              || negb (JS.truthy_number (Patient.age payload))
              || negb (JS.truthy_string (Patient.gender payload))
              || negb (JS.truthy_string (Patient.bloodType payload))
              || negb (JS.truthy_string (Patient.medicalHistory payload)))
      eqn:Hguard; [done |].
    bool_facts. destruct Hmissing. by repeat split.
  - intros (Hn & Ha & Hg & Hb & Hm) Hnone. use_present. simpl.
    by rewrite Hnone.
  - intros (Hn & Ha & Hg & Hb & Hm) found Hfound. use_present. simpl.
    by rewrite Hfound.
Qed.

Lemma updatePatient_rejections_witness :
  "p-7" ≠ "" ∧ "d-1" ≠ ""
  ∧ ¬ PatientPresent alice ∧ PatientPresent alice_ok
  ∧ patientsStorage st_linked !! "p-7" = None
  ∧ doctorsStorage st_linked !! "d-1"
    = Some (Obj.of_Doctor (created_doctor "d-1" 101 dr_who))
  ∧ updatePatient 200 "p-7" alice st_linked
    = (Err (InvalidPayload "Invalid patient payload"), st_linked)
  ∧ updatePatient 200 "p-7" alice_ok st_linked
    = (Err (NotFound "Couldn't update a patient with ID p-7. Patient not found"),
       st_linked)
  ∧ (updatePatient 200 "d-1" alice_ok st_linked).1
    = Ok (updated_object 200 alice_ok
            (Obj.of_Doctor (created_doctor "d-1" 101 dr_who))).
Proof.
  assert ("p-7" ≠ "") as Hid by discriminate.
  assert ("d-1" ≠ "") as Hid' by discriminate.
  assert (¬ PatientPresent alice) as Hmissing
    by (intros (_ & _ & _ & _ & Hm); by apply Hm).
  assert (PatientPresent alice_ok) as Hpresent
    by (repeat split; discriminate).
  assert (patientsStorage st_linked !! "p-7" = None) as Hnone by reflexivity.
  assert (doctorsStorage st_linked !! "d-1"
          = Some (Obj.of_Doctor (created_doctor "d-1" 101 dr_who))) as Hdoc
    by reflexivity.
  repeat (split; [assumption |]).
  split_and!.
  - exact (proj1 (updatePatient_rejections 200 "p-7" alice st_linked Hid)
             Hmissing).
  - exact (proj1 (proj2 (updatePatient_rejections 200 "p-7" alice_ok st_linked
                           Hid)) Hpresent Hnone).
  - exact (proj2 (proj2 (updatePatient_rejections 200 "d-1" alice_ok st_linked
                           Hid')) Hpresent _ Hdoc).
Defined.

(** X10.  When a record is stored under the non-empty [id] and the payload
    has all five fields present, [updatePatient] succeeds: it returns that
    record overlaid by the payload, with [updatedAt] set; a following
    [getPatient(id)] returns the same; [getPatient] on every other id
    answers as before; and every other key of the memory holds what it
    held. *)
Theorem updatePatient_then_getPatient (time : N) (id : string)
    (payload : Patient.t) (existing : Obj.t) (st : State) :
  id ≠ "" → patientsStorage st !! id = Some existing →
  PatientPresent payload →
  ∃ st' : State,
    updatePatient time id payload st
    = (Ok (updated_object time payload existing), st')
    ∧ getPatient id st' = Ok (updated_object time payload existing)
    ∧ (∀ other : string, other ≠ id → getPatient other st' = getPatient other st)
    ∧ (∀ other : string,
         other ≠ id →
         patientsStorage st' !! other = patientsStorage st !! other).
Proof.
  intros Hid Hex (Hn & Ha & Hg & Hb & Hm).
  unfold updatePatient, StableBTreeMap.get, StableBTreeMap.insert.
  use_present. simpl. rewrite Hex.
  eexists. split; [reflexivity |].
  unfold getPatient, StableBTreeMap.get. unfold_handles. use_present. simpl.
  rewrite lookup_insert_eq. split; [done |].
  split; intros other Hother; by rewrite lookup_insert_ne.
Qed.

Lemma updatePatient_then_getPatient_witness :
  "p-1" ≠ ""
  ∧ patientsStorage st_alice !! "p-1"
    = Some (Obj.of_Patient (created_patient "p-1" 100 alice_ok))
  ∧ PatientPresent other_gender
  ∧ ∃ st' : State,
      updatePatient 200 "p-1" other_gender st_alice
      = (Ok (Obj.of_Patient (updated_patient 200 other_gender)), st')
      ∧ getPatient "p-1" st' = Ok (Obj.of_Patient (updated_patient 200 other_gender))
      ∧ (∀ other : string,
           other ≠ "p-1" → getPatient other st' = getPatient other st_alice)
      ∧ (∀ other : string,
           other ≠ "p-1" →
           patientsStorage st' !! other = patientsStorage st_alice !! other).
Proof.
  assert ("p-1" ≠ "") as Hid by discriminate.
  assert (patientsStorage st_alice !! "p-1"
          = Some (Obj.of_Patient (created_patient "p-1" 100 alice_ok))) as Hex
    by reflexivity.
  assert (PatientPresent other_gender) as Hpresent
    by (repeat split; discriminate).
  repeat (split; [assumption |]).
  exact (updatePatient_then_getPatient 200 "p-1" other_gender _ st_alice
           Hid Hex Hpresent).
Defined.

(** X11.  [deletePatient] removes whatever record sits under a non-empty
    id, whichever method stored it: it answers [Ok] with that record, the
    key is gone for all five handles (a doctor deleted this way is no longer
    listed by [getDoctors]), and every other key of the memory holds what it
    held. *)
Theorem deletePatient_removes_any_record (id : string) (found : Obj.t)
    (st : State) :
  id ≠ "" → doctorsStorage st !! id = Some found →
  ∃ st' : State,
    deletePatient id st = (Ok found, st')
    ∧ patientsStorage st' !! id = None
    ∧ healthRecordsStorage st' !! id = None
    ∧ doctorsStorage st' !! id = None
    ∧ prescriptionsStorage st' !! id = None
    ∧ labTestsStorage st' !! id = None
    ∧ (∀ other : string,
         other ≠ id → doctorsStorage st' !! other = doctorsStorage st !! other).
Proof.
  intros Hid Hfound. unfold deletePatient, StableBTreeMap.remove.
  use_present. simpl. unfold_handles. rewrite Hfound.
  eexists. split; [reflexivity |]. simpl.
  split_and!; try apply lookup_delete_eq.
  intros other Hother. by rewrite lookup_delete_ne.
Qed.

Lemma deletePatient_removes_any_record_witness :
  "d-1" ≠ ""
  ∧ doctorsStorage st_linked !! "d-1"
    = Some (Obj.of_Doctor (created_doctor "d-1" 101 dr_who))
  ∧ ∃ st' : State,
      deletePatient "d-1" st_linked
      = (Ok (Obj.of_Doctor (created_doctor "d-1" 101 dr_who)), st')
      ∧ patientsStorage st' !! "d-1" = None
      ∧ healthRecordsStorage st' !! "d-1" = None
      ∧ doctorsStorage st' !! "d-1" = None
      ∧ prescriptionsStorage st' !! "d-1" = None
      ∧ labTestsStorage st' !! "d-1" = None
      ∧ (∀ other : string,
           other ≠ "d-1" →
           doctorsStorage st' !! other = doctorsStorage st_linked !! other).
Proof.
  assert ("d-1" ≠ "") as Hid by discriminate.
  assert (doctorsStorage st_linked !! "d-1"
          = Some (Obj.of_Doctor (created_doctor "d-1" 101 dr_who))) as Hdoc
    by reflexivity.
  repeat (split; [assumption |]).
  exact (deletePatient_removes_any_record "d-1" _ st_linked Hid Hdoc).
Defined.

(** X12.  Creating a patient under an id that was not yet a key and deleting
    that id again returns the created record and restores the state in which
    [addPatient] was called. *)
Theorem addPatient_then_deletePatient (uuid : string) (time : N)
    (payload : Patient.t) (st : State) :
  PatientRules payload → uuid ≠ "" → patientsStorage st !! uuid = None →
  deletePatient uuid (addPatient uuid time payload st).2
  = (Ok (Obj.of_Patient (created_patient uuid time payload)), st).
Proof.
  intros Hrules Hu Hfresh. rewrite (addPatient_accepted _ _ _ _ Hrules).
  unfold deletePatient, StableBTreeMap.remove. use_present. simpl.
  unfold_handles.
  rewrite lookup_insert_eq, delete_insert_id by done.
  by destruct st.
Qed.

Lemma addPatient_then_deletePatient_witness :
  PatientRules alice_ok ∧ "p-2" ≠ ""
  ∧ patientsStorage st_linked !! "p-2" = None
  ∧ deletePatient "p-2" (addPatient "p-2" 150 alice_ok st_linked).2
    = (Ok (Obj.of_Patient (created_patient "p-2" 150 alice_ok)), st_linked).
Proof.
  assert (PatientRules alice_ok) as Hrules.
  { unfold PatientRules. simpl. repeat split; try discriminate; try lia; auto. }
  assert ("p-2" ≠ "") as Hu by discriminate.
  assert (patientsStorage st_linked !! "p-2" = None) as Hfresh by reflexivity.
  repeat (split; [assumption |]).
  exact (addPatient_then_deletePatient "p-2" 150 alice_ok st_linked
           Hrules Hu Hfresh).
Defined.

(** X13.  Deleting the same id a second time always fails: whatever the
    first [deletePatient(id)] answered, the second answers NotFound and
    changes nothing. *)
Theorem deletePatient_twice (id : string) (st : State) :
  is_NotFound (deletePatient id (deletePatient id st).2).1 = true
  ∧ (deletePatient id (deletePatient id st).2).2 = (deletePatient id st).2.
Proof.
  unfold deletePatient at 1 3.
  destruct (negb (JS.truthy_string id)) eqn:Hid; [done |].
  assert (patientsStorage (deletePatient id st).2 !! id = None) as Hgone.
  { unfold deletePatient, StableBTreeMap.remove. rewrite Hid.
    repeat case_match; simplify_eq/=; unfold_handles; apply lookup_delete_eq. }
  rewrite (remove_absent _ _ Hgone). simpl.
  split; [done | apply with_patients_same].
Qed.

(** ** What every reachable state satisfies, and what it need not *)

Lemma dispatch_guarded_fields_present (uuid : string) (time : N) (c : Call)
    (st : State) :
  map_Forall (λ _, guarded_fields_present) (patientsStorage st) →
  map_Forall (λ _, guarded_fields_present) (patientsStorage (dispatch uuid time c st).2).
Proof.
  intros Hst. unfold patientsStorage in Hst.
  destruct c; simpl; method_cases; try done;
    try (by apply map_Forall_delete);
    repeat apply map_Forall_insert_2; try done.
  all: try match goal with
         | H : stable_memory_0 _ !! _ = Some ?o |- _ =>
             pose proof (Hst _ _ H) as Hfound;
             unfold guarded_fields_present in Hfound;
             destruct Hfound as (? & ? & ? & ? & ? & ? & ? & ? & ? & ? & ? & ?
                                 & ? & ?)
         end.
  all: try match goal with
         | H : <[_ := _]> (stable_memory_0 _) !! _ = Some ?o |- _ =>
             apply lookup_insert_Some in H as [[_ <-] | [_ H]];
             [ | pose proof (Hst _ _ H) as Hfound;
                 unfold guarded_fields_present in Hfound;
                 destruct Hfound as (? & ? & ? & ? & ? & ? & ? & ? & ? & ? & ?
                                     & ? & ? & ?) ]
         end.
  all: unfold guarded_fields_present; simpl; bool_facts; split_and!;
    try done; try (intros [=]; done).
Qed.

(** X15.  In every reachable state, no stored record holds an empty text in
    a field that a presence test guards (name, gender, bloodType,
    medicalHistory, specialization, patientID, officerID, diagnosisNotes,
    doctorID, medication, dosage, testType, results), nor an age of 0:
    every such field of a record is either absent or non-empty. *)
Theorem reachable_guarded_fields_present (st : State) :
  reachable st → map_Forall (λ _, guarded_fields_present) (patientsStorage st).
Proof.
  induction 1 as [| st uuid time c _ IH _].
  - apply map_Forall_empty.
  - by apply dispatch_guarded_fields_present.
Qed.

Lemma reachable_guarded_fields_present_witness :
  reachable st_linked
  ∧ map_Forall (λ _, guarded_fields_present) (patientsStorage st_linked).
Proof.
  split; [exact reachable_st_linked |].
  exact (reachable_guarded_fields_present st_linked reachable_st_linked).
Defined.

(** X16.  The empty key can be reached.  From any reachable state: create a
    health record (under [uuid1]); call [updatePatient] on [uuid1] with a
    payload whose own [id] is empty, which overlays the health record and
    gives it the empty id; call [addPrescription] with [uuid1] in the
    [patientID] field, which finds that record and writes it back under its
    id.  The state reached holds a record under the empty key: [getPatients]
    lists it, while [getPatient("")] and [deletePatient("")] answer
    NotFound. *)
Theorem empty_key_reachable (uuid1 uuid2 : string) (time1 time2 time3 : N)
    (record : HealthRecord.t) (patient : Patient.t) (rx : Prescription.t)
    (st : State) :
  reachable st →
  HealthRecordPresent record → PatientPresent patient →
  PrescriptionPresent rx →
  Patient.id patient = "" → Prescription.patientID rx = uuid1 →
  uuid1 ≠ "" → uuid2 ≠ "" → uuid2 ≠ uuid1 →
  let st1 := (dispatch uuid1 time1 (CallAddHealthRecord record) st).2 in
  let st2 := (dispatch uuid1 time2 (CallUpdatePatient uuid1 patient) st1).2 in
  let st3 := (dispatch uuid2 time3 (CallAddPrescription rx) st2).2 in
  reachable st3
  ∧ ∃ stored : Obj.t,
      patientsStorage st3 !! "" = Some stored
      ∧ Obj.prescriptionIDs stored = Some [uuid2]
      ∧ stored ∈ listed (getPatients st3)
      ∧ getPatient "" st3 = Err (NotFound "Invalid patient ID")
      ∧ deletePatient "" st3 = (Err (NotFound "Invalid patient ID"), st3).
Proof.
  intros Hreach (Hp & Ho & Hn) (Hpn & Hpa & Hpg & Hpb & Hpm)
    (Hd & Hp' & Hm & Hx) Hid Hkey Hu1 Hu2 Hdistinct.
  intros st1 st2 st3. split.
  { subst st1 st2 st3. by repeat (apply reachable_step; [| done]). }
  subst st1 st2 st3. simpl.
  subst uuid1. revert Hu1 Hdistinct.
  unfold addHealthRecord, StableBTreeMap.insert, StableBTreeMap.get.
  use_present. rewrite not_truthy_Opt. simpl. intros Hu1 Hdistinct.
  unfold updatePatient, StableBTreeMap.insert, StableBTreeMap.get.
  use_present. simpl. unfold_handles. rewrite lookup_insert_eq. simpl.
  unfold addPrescription, StableBTreeMap.insert, StableBTreeMap.get.
  use_present. rewrite !not_truthy_Opt. simpl.
  rewrite lookup_insert_ne, lookup_insert_eq by done. simpl.
  rewrite Hid. eexists. split; [by rewrite lookup_insert_eq |].
  split; [done |]. split; [| done].
  apply values_elem. exists "". by rewrite lookup_insert_eq.
Qed.

Lemma empty_key_reachable_witness :
  reachable init
  ∧ HealthRecordPresent hr_alice ∧ PatientPresent alice_ok
  ∧ PrescriptionPresent rx_on_record
  ∧ Patient.id alice_ok = "" ∧ Prescription.patientID rx_on_record = "hr-1"
  ∧ "hr-1" ≠ "" ∧ "rx-1" ≠ "" ∧ "rx-1" ≠ "hr-1"
  ∧ reachable
      (dispatch "rx-1" 3 (CallAddPrescription rx_on_record)
         (dispatch "hr-1" 2 (CallUpdatePatient "hr-1" alice_ok)
            (dispatch "hr-1" 1 (CallAddHealthRecord hr_alice) init).2).2).2
  ∧ ∃ stored : Obj.t,
      patientsStorage
        (dispatch "rx-1" 3 (CallAddPrescription rx_on_record)
           (dispatch "hr-1" 2 (CallUpdatePatient "hr-1" alice_ok)
              (dispatch "hr-1" 1 (CallAddHealthRecord hr_alice) init).2).2).2
        !! "" = Some stored
      ∧ Obj.prescriptionIDs stored = Some ["rx-1"]
      ∧ stored
        ∈ listed
            (getPatients
               (dispatch "rx-1" 3 (CallAddPrescription rx_on_record)
                  (dispatch "hr-1" 2 (CallUpdatePatient "hr-1" alice_ok)
                     (dispatch "hr-1" 1 (CallAddHealthRecord hr_alice)
                        init).2).2).2)
      ∧ getPatient ""
          (dispatch "rx-1" 3 (CallAddPrescription rx_on_record)
             (dispatch "hr-1" 2 (CallUpdatePatient "hr-1" alice_ok)
                (dispatch "hr-1" 1 (CallAddHealthRecord hr_alice) init).2).2).2
        = Err (NotFound "Invalid patient ID")
      ∧ deletePatient ""
          (dispatch "rx-1" 3 (CallAddPrescription rx_on_record)
             (dispatch "hr-1" 2 (CallUpdatePatient "hr-1" alice_ok)
                (dispatch "hr-1" 1 (CallAddHealthRecord hr_alice) init).2).2).2
        = (Err (NotFound "Invalid patient ID"),
           (dispatch "rx-1" 3 (CallAddPrescription rx_on_record)
              (dispatch "hr-1" 2 (CallUpdatePatient "hr-1" alice_ok)
                 (dispatch "hr-1" 1 (CallAddHealthRecord hr_alice)
                    init).2).2).2).
Proof.
  assert (HealthRecordPresent hr_alice) as H1 by (repeat split; discriminate).
  assert (PatientPresent alice_ok) as H2 by (repeat split; discriminate).
  assert (PrescriptionPresent rx_on_record) as H3
    by (repeat split; discriminate).
  assert (Patient.id alice_ok = "") as H4 by reflexivity.
  assert (Prescription.patientID rx_on_record = "hr-1") as H5 by reflexivity.
  assert ("hr-1" ≠ "") as H6 by discriminate.
  assert ("rx-1" ≠ "") as H7 by discriminate.
  assert ("rx-1" ≠ "hr-1") as H8 by discriminate.
  split; [exact reachable_init |].
  repeat (split; [assumption |]).
  exact (empty_key_reachable "hr-1" "rx-1" 1 2 3 hr_alice alice_ok
           rx_on_record init reachable_init H1 H2 H3 H4 H5 H6 H7 H8).
Defined.

Lemma is_Some_insert {V : Type} (m : gmap string V) (key key' : string)
    (v : V) :
  is_Some (m !! key) → is_Some (<[key' := v]> m !! key).
Proof.
  intros Hsome. destruct (decide (key' = key)) as [-> | Hne].
  - rewrite lookup_insert_eq. eauto.
  - by rewrite lookup_insert_ne.
Qed.

(** X17.  Only [deletePatient] empties a key: a key of the memory is still
    a key, for all five handles, after any update call other than
    [deletePatient] of that key.  ([deletePatient] of that key removes the
    record whatever its kind.) *)
Theorem entries_never_removed (uuid : string) (time : N) (c : Call)
    (st : State) (key : string) :
  c ≠ CallDeletePatient key →
  is_Some (patientsStorage st !! key) →
  let st' := (dispatch uuid time c st).2 in
  is_Some (patientsStorage st' !! key)
  ∧ is_Some (healthRecordsStorage st' !! key)
  ∧ is_Some (doctorsStorage st' !! key)
  ∧ is_Some (prescriptionsStorage st' !! key)
  ∧ is_Some (labTestsStorage st' !! key).
Proof.
  intros Hc Hsome. simpl.
  assert (is_Some (stable_memory_0 (dispatch uuid time c st).2 !! key))
    as Hafter; [| by unfold_handles].
  unfold patientsStorage in Hsome.
  destruct c; simpl; method_cases; try done;
    repeat (apply is_Some_insert); try done.
  all: rewrite lookup_delete_ne; [done | congruence].
Qed.

Lemma entries_never_removed_witness :
  CallDeletePatient "p-1" ≠ CallDeletePatient "d-1"
  ∧ is_Some (patientsStorage st_linked !! "d-1")
  ∧ is_Some
      (patientsStorage
         (dispatch "x" 200 (CallDeletePatient "p-1") st_linked).2 !! "d-1")
  ∧ is_Some
      (healthRecordsStorage
         (dispatch "x" 200 (CallDeletePatient "p-1") st_linked).2 !! "d-1")
  ∧ is_Some
      (doctorsStorage
         (dispatch "x" 200 (CallDeletePatient "p-1") st_linked).2 !! "d-1")
  ∧ is_Some
      (prescriptionsStorage
         (dispatch "x" 200 (CallDeletePatient "p-1") st_linked).2 !! "d-1")
  ∧ is_Some
      (labTestsStorage
         (dispatch "x" 200 (CallDeletePatient "p-1") st_linked).2 !! "d-1").
Proof.
  assert (CallDeletePatient "p-1" ≠ CallDeletePatient "d-1") as Hc
    by discriminate.
  assert (is_Some (patientsStorage st_linked !! "d-1")) as Hsome
    by (eexists; reflexivity).
  split; [exact Hc |]. split; [exact Hsome |].
  exact (entries_never_removed "x" 200 (CallDeletePatient "p-1") st_linked
           "d-1" Hc Hsome).
Defined.

(** ** The patient-only canister *)

Lemma keyed_by_insert {V : Type} (id : V → string) (m : gmap string V)
    (key : string) (v : V) :
  id v = key → keyed_by id m → keyed_by id (<[key := v]> m).
Proof.
  intros Hid Hm key' v'. destruct (decide (key = key')) as [<- | Hne].
  - rewrite lookup_insert_eq. by intros [= <-].
  - rewrite lookup_insert_ne by done. apply Hm.
Qed.

Lemma PatientOnly_truthy_nat64_true (n : N) :
  PatientOnly.truthy_nat64 n = true ↔ n ≠ 0%N.
Proof.
  unfold PatientOnly.truthy_nat64. rewrite negb_true_iff. apply N.eqb_neq.
Qed.

Ltac use_present64 :=
  use_present;
  repeat match goal with
    | H : ?n ≠ 0%N |- context [PatientOnly.truthy_nat64 ?n] =>
        rewrite (proj2 (PatientOnly_truthy_nat64_true n) H)
    end.

(** X19.  In the patient-only canister, whose update payload has no [id] and
    no [createdAt], a successful [updatePatient(id, payload)] keeps both:
    for a non-empty [id] that is a key of the store and a payload with its
    five fields present, the record returned and stored under [id] has the
    [id] and [createdAt] of the record it replaces, the payload's five
    fields, and [updatedAt] set to the time of the call. *)
Theorem PatientOnly_updatePatient_keeps_id (time : N) (id : string)
    (payload : PatientOnly.PatientPayload.t)
    (existing : PatientOnly.Patient.t)
    (patientsStorage : gmap string PatientOnly.Patient.t) :
  id ≠ "" → patientsStorage !! id = Some existing →
  PatientOnly.PayloadPresent payload →
  ∃ updated : PatientOnly.Patient.t,
    PatientOnly.updatePatient time id payload patientsStorage
    = (Ok updated, <[id := updated]> patientsStorage)
    ∧ PatientOnly.Patient.id updated = PatientOnly.Patient.id existing
    ∧ PatientOnly.Patient.createdAt updated
      = PatientOnly.Patient.createdAt existing
    ∧ PatientOnly.Patient.updatedAt updated = Some time
    ∧ PatientOnly.Patient.name updated = PatientOnly.PatientPayload.name payload
    ∧ PatientOnly.Patient.age updated = PatientOnly.PatientPayload.age payload
    ∧ PatientOnly.Patient.gender updated
      = PatientOnly.PatientPayload.gender payload
    ∧ PatientOnly.Patient.bloodType updated
      = PatientOnly.PatientPayload.bloodType payload
    ∧ PatientOnly.Patient.medicalHistory updated
      = PatientOnly.PatientPayload.medicalHistory payload.
Proof.
  intros Hid Hex (Hn & Ha & Hg & Hb & Hm).
  unfold PatientOnly.updatePatient, StableBTreeMap.get, StableBTreeMap.insert.
  use_present64. simpl. rewrite Hex.
  eexists. split; [reflexivity |]. by split_and!.
Qed.

Lemma PatientOnly_updatePatient_keeps_id_witness :
  "p-1" ≠ ""
  ∧ PatientOnly.store_alice !! "p-1"
    = Some (PatientOnly.Patient.mk "p-1" "Alice" 30 "female" "O" "none" 100 None)
  ∧ PatientOnly.PayloadPresent PatientOnly.alice_older
  ∧ ∃ updated : PatientOnly.Patient.t,
      PatientOnly.updatePatient 200 "p-1" PatientOnly.alice_older
        PatientOnly.store_alice
      = (Ok updated, <["p-1" := updated]> PatientOnly.store_alice)
      ∧ PatientOnly.Patient.id updated = "p-1"
      ∧ PatientOnly.Patient.createdAt updated = 100%N
      ∧ PatientOnly.Patient.updatedAt updated = Some 200%N
      ∧ PatientOnly.Patient.name updated = "Alice"
      ∧ PatientOnly.Patient.age updated = 31%N
      ∧ PatientOnly.Patient.gender updated = "female"
      ∧ PatientOnly.Patient.bloodType updated = "O"
      ∧ PatientOnly.Patient.medicalHistory updated = "none".
Proof.
  assert ("p-1" ≠ "") as Hid by discriminate.
  assert (PatientOnly.store_alice !! "p-1"
          = Some (PatientOnly.Patient.mk "p-1" "Alice" 30 "female" "O" "none"
                    100 None)) as Hex by reflexivity.
  assert (PatientOnly.PayloadPresent PatientOnly.alice_older) as Hpresent
    by (repeat split; discriminate).
  repeat (split; [assumption |]).
  exact (PatientOnly_updatePatient_keeps_id 200 "p-1"
           PatientOnly.alice_older _ PatientOnly.store_alice Hid Hex Hpresent).
Defined.

Lemma PatientOnly_dispatch_keyed (uuid : string) (time : N)
    (c : PatientOnly.Call) (m : gmap string PatientOnly.Patient.t) :
  uuid ≠ "" →
  keyed_by PatientOnly.Patient.id m ∧ m !! "" = None →
  keyed_by PatientOnly.Patient.id (PatientOnly.dispatch uuid time c m)
  ∧ PatientOnly.dispatch uuid time c m !! "" = None.
Proof.
  intros Hu [Hkeyed Hempty].
  destruct c; simpl;
    unfold PatientOnly.addPatient, PatientOnly.updatePatient,
      PatientOnly.deletePatient, StableBTreeMap.insert, StableBTreeMap.remove,
      StableBTreeMap.get;
    repeat case_match; simplify_eq/=; try done.
  - split; [by apply keyed_by_insert | by rewrite lookup_insert_ne].
  - split.
    + apply keyed_by_insert; [| done]. simpl. by apply Hkeyed.
    + rewrite lookup_insert_ne; [done |]. by intros ->.
  - split.
    + intros key v Hv. apply lookup_delete_Some in Hv as [_ Hv].
      by apply Hkeyed.
    + destruct (decide (id = "")) as [-> | Hne];
        [by rewrite lookup_delete_eq | by rewrite lookup_delete_ne].
  - split.
    + intros key v Hv. apply lookup_delete_Some in Hv as [_ Hv].
      by apply Hkeyed.
    + destruct (decide (id = "")) as [-> | Hne];
        [by rewrite lookup_delete_eq | by rewrite lookup_delete_ne].
Qed.

(** X20.  In the patient-only canister every stored patient stays under its
    own id: in every reachable store, each patient that [getPatients] lists
    is returned by [getPatient] called with that patient's [id] field. *)
Theorem PatientOnly_listed_retrievable_by_id
    (m : gmap string PatientOnly.Patient.t) (p : PatientOnly.Patient.t) :
  PatientOnly.reachable m →
  p ∈ listed (PatientOnly.getPatients m) →
  PatientOnly.getPatient (PatientOnly.Patient.id p) m = Ok p.
Proof.
  intros Hreach Hin.
  assert (keyed_by PatientOnly.Patient.id m ∧ m !! "" = None)
    as [Hkeyed Hempty].
  { clear Hin. induction Hreach as [| m uuid time c _ IH Hu].
    - split; [| done]. intros key v. by rewrite lookup_empty.
    - by apply PatientOnly_dispatch_keyed. }
  simpl in Hin. apply values_elem in Hin as [key Hkey].
  rewrite (Hkeyed _ _ Hkey).
  assert (key ≠ "") as Hne by (intros ->; congruence).
  unfold PatientOnly.getPatient, StableBTreeMap.get. use_present. simpl.
  by rewrite Hkey.
Qed.

Lemma PatientOnly_reachable_store_updated :
  PatientOnly.reachable PatientOnly.store_updated.
Proof.
  unfold PatientOnly.store_updated, PatientOnly.store_alice.
  repeat (apply PatientOnly.reachable_step; [| discriminate]).
  apply PatientOnly.reachable_init.
Defined.

Lemma PatientOnly_listed_retrievable_by_id_witness :
  PatientOnly.reachable PatientOnly.store_updated
  ∧ PatientOnly.Patient.mk "p-1" "Alice" 31 "female" "O" "none" 100
      (Some 200%N)
    ∈ listed (PatientOnly.getPatients PatientOnly.store_updated)
  ∧ PatientOnly.getPatient "p-1" PatientOnly.store_updated
    = Ok (PatientOnly.Patient.mk "p-1" "Alice" 31 "female" "O" "none" 100
            (Some 200%N)).
Proof.
  assert (PatientOnly.Patient.mk "p-1" "Alice" 31 "female" "O" "none" 100
            (Some 200%N)
          ∈ listed (PatientOnly.getPatients PatientOnly.store_updated))
    as Hin.
  { apply values_elem. exists "p-1". reflexivity. }
  split; [exact PatientOnly_reachable_store_updated |].
  split; [exact Hin |].
  exact (PatientOnly_listed_retrievable_by_id PatientOnly.store_updated _
           PatientOnly_reachable_store_updated Hin).
Defined.

(** ** Which rule answers *)

(** X21.  In [addPatient] the first rule that fails decides the error, and
    no error stores anything.  For a payload with its five fields present: a
    negative age is answered "Invalid age"; a positive age with a gender
    other than "male" and "female" is answered "Invalid gender"; with a valid
    gender, a bloodType other than "A", "B", "AB" and "O" is answered
    "Invalid blood type", whatever the medicalHistory; and with these three
    valid, a medicalHistory of more than 1000 characters is answered "Invalid
    medical history". *)
Theorem addPatient_first_failing_rule (uuid : string) (time : N)
    (payload : Patient.t) (st : State) :
  PatientPresent payload →
  ((Patient.age payload < 0)%Z →
   addPatient uuid time payload st = (Err (InvalidPayload "Invalid age"), st))
  ∧ ((0 < Patient.age payload)%Z →
     Patient.gender payload ≠ "male" → Patient.gender payload ≠ "female" →
     addPatient uuid time payload st
     = (Err (InvalidPayload "Invalid gender"), st))
  ∧ ((0 < Patient.age payload)%Z →
     Patient.gender payload = "male" ∨ Patient.gender payload = "female" →
     Patient.bloodType payload ≠ "A" → Patient.bloodType payload ≠ "B" →
     Patient.bloodType payload ≠ "AB" → Patient.bloodType payload ≠ "O" →
     addPatient uuid time payload st
     = (Err (InvalidPayload "Invalid blood type"), st))
  ∧ ((0 < Patient.age payload)%Z →
     Patient.gender payload = "male" ∨ Patient.gender payload = "female" →
     Patient.bloodType payload = "A" ∨ Patient.bloodType payload = "B"
     ∨ Patient.bloodType payload = "AB" ∨ Patient.bloodType payload = "O" →
     (1000 < String.length (Patient.medicalHistory payload))%nat →
     addPatient uuid time payload st
     = (Err (InvalidPayload "Invalid medical history"), st)).
Proof.
  intros (Hn & Ha & Hg & Hb & Hm). unfold addPatient. use_present. simpl.
  split_and!.
  - intros Hneg.
    by assert ((Patient.age payload <=? 0)%Z = true) as ->
      by (apply Z.leb_le; lia).
  - intros Hpos Hg1 Hg2.
    assert ((Patient.age payload <=? 0)%Z = false) as ->
      by (apply Z.leb_gt; lia).
    by rewrite (proj2 (strict_ne_true _ _) Hg1),
      (proj2 (strict_ne_true _ _) Hg2).
  - intros Hpos Hgender Hb1 Hb2 Hb3 Hb4.
    assert ((Patient.age payload <=? 0)%Z = false) as ->
      by (apply Z.leb_gt; lia).
    assert (JS.strict_ne (Patient.gender payload) "male"
            && JS.strict_ne (Patient.gender payload) "female" = false) as ->
      by (destruct Hgender as [-> | ->]; reflexivity).
    by rewrite (proj2 (strict_ne_true _ _) Hb1),
      (proj2 (strict_ne_true _ _) Hb2), (proj2 (strict_ne_true _ _) Hb3),
      (proj2 (strict_ne_true _ _) Hb4).
  - intros Hpos Hgender Hblood Hlong.
    assert ((Patient.age payload <=? 0)%Z = false) as ->
      by (apply Z.leb_gt; lia).
    assert (JS.strict_ne (Patient.gender payload) "male"
            && JS.strict_ne (Patient.gender payload) "female" = false) as ->
      by (destruct Hgender as [-> | ->]; reflexivity).
    assert (JS.strict_ne (Patient.bloodType payload) "A"
            && JS.strict_ne (Patient.bloodType payload) "B"
            && JS.strict_ne (Patient.bloodType payload) "AB"
            && JS.strict_ne (Patient.bloodType payload) "O" = false) as ->
      by (destruct Hblood as [-> | [-> | [-> | ->]]]; reflexivity).
    by assert ((1000 <?
                Z.of_nat (String.length (Patient.medicalHistory payload)))%Z
               = true) as -> by (apply Z.ltb_lt; lia).
Qed.

Lemma addPatient_first_failing_rule_witness :
  PatientPresent negative_age ∧ PatientPresent other_gender
  ∧ PatientPresent other_bloodType ∧ PatientPresent long_history
  ∧ addPatient "p-2" 150 negative_age st_alice
    = (Err (InvalidPayload "Invalid age"), st_alice)
  ∧ addPatient "p-2" 150 other_gender st_alice
    = (Err (InvalidPayload "Invalid gender"), st_alice)
  ∧ addPatient "p-2" 150 other_bloodType st_alice
    = (Err (InvalidPayload "Invalid blood type"), st_alice)
  ∧ addPatient "p-2" 150 long_history st_alice
    = (Err (InvalidPayload "Invalid medical history"), st_alice).
Proof.
  assert (PatientPresent negative_age) as H1 by (repeat split; discriminate).
  assert (PatientPresent other_gender) as H2 by (repeat split; discriminate).
  assert (PatientPresent other_bloodType) as H3
    by (repeat split; discriminate).
  assert (PatientPresent long_history) as H4
    by (repeat split; by vm_compute).
  repeat (split; [assumption |]).
  split_and!.
  - apply (addPatient_first_failing_rule "p-2" 150 negative_age st_alice H1).
    simpl. lia.
  - apply (addPatient_first_failing_rule "p-2" 150 other_gender st_alice H2);
      [simpl; lia | discriminate | discriminate].
  - apply (addPatient_first_failing_rule "p-2" 150 other_bloodType st_alice
             H3); [simpl; lia | by right | discriminate ..].
  - apply (addPatient_first_failing_rule "p-2" 150 long_history st_alice H4);
      [simpl; lia | by right | by right; right; right |].
    apply Nat.ltb_lt. by vm_compute.
Defined.

(** X22.  In the patient-only canister, where the age is a [nat64], the
    error "Invalid age" is never returned: an age of 0 already fails the
    presence test, and no other age is below or equal to 0.  Every error of
    its [addPatient] is an InvalidPayload with one of the four other
    messages. *)
Theorem PatientOnly_addPatient_errors (uuid : string) (time : N)
    (payload : PatientOnly.PatientPayload.t)
    (patientsStorage : gmap string PatientOnly.Patient.t) (e : Error) :
  (PatientOnly.addPatient uuid time payload patientsStorage).1 = Err e →
  e = InvalidPayload "Invalid patient payload"
  ∨ e = InvalidPayload "Invalid gender"
  ∨ e = InvalidPayload "Invalid blood type"
  ∨ e = InvalidPayload "Invalid medical history".
Proof.
  unfold PatientOnly.addPatient.
  destruct (PatientOnly.truthy_nat64 (PatientOnly.PatientPayload.age payload))
    eqn:Hage.
  - apply PatientOnly_truthy_nat64_true in Hage.
    assert ((PatientOnly.PatientPayload.age payload <=? 0)%N = false) as ->
      by (apply N.leb_gt; lia).
    repeat case_match; simpl; intros [= <-]; auto.
  - rewrite !orb_true_r. simpl. intros [= <-]. auto.
Qed.

Lemma PatientOnly_addPatient_errors_witness :
  (PatientOnly.addPatient "p-2" 150
     (PatientOnly.PatientPayload.mk "Alice" 0 "female" "O" "none")
     PatientOnly.store_alice).1
  = Err (InvalidPayload "Invalid patient payload")
  ∧ (InvalidPayload "Invalid patient payload"
     = InvalidPayload "Invalid patient payload"
     ∨ InvalidPayload "Invalid patient payload"
       = InvalidPayload "Invalid gender"
     ∨ InvalidPayload "Invalid patient payload"
       = InvalidPayload "Invalid blood type"
     ∨ InvalidPayload "Invalid patient payload"
       = InvalidPayload "Invalid medical history").
Proof.
  assert ((PatientOnly.addPatient "p-2" 150
             (PatientOnly.PatientPayload.mk "Alice" 0 "female" "O" "none")
             PatientOnly.store_alice).1
          = Err (InvalidPayload "Invalid patient payload")) as Herr
    by reflexivity.
  split; [exact Herr |].
  exact (PatientOnly_addPatient_errors _ _ _ _ _ Herr).
Defined.

(** X23.  [updatePatient] never creates and never removes a patient:
    whatever its arguments and its answer, the patients store has the same
    keys after the call as before, and [getPatients] lists as many
    records. *)
Theorem updatePatient_keeps_keys (time : N) (id : string)
    (payload : Patient.t) (st : State) :
  dom (patientsStorage (updatePatient time id payload st).2)
  = dom (patientsStorage st)
  ∧ length (listed (getPatients (updatePatient time id payload st).2))
    = length (listed (getPatients st)).
Proof.
  simpl. rewrite !values_length.
  unfold updatePatient, StableBTreeMap.get, StableBTreeMap.insert.
  repeat case_match; simplify_eq/=; unfold_handles; try done.
  split.
  - apply dom_insert_lookup_L. eauto.
  - apply map_size_insert_Some. eauto.
Qed.
